(** * FinGuide: the budget and goals page

    A shallow embedding of the budget/goals screen of the FinGuide front end
    (the page component [BudgetPage] and its dialogs [BudgetFormDialog],
    [GoalFormDialog], [AddSavingsDialog] and [DeleteConfirmDialog]) and the
    properties of its list-state handlers.

    JavaScript values are modelled as the code has them: a [number] is an
    IEEE 754 binary64 value (the Standard Library's [spec_float] at
    precision 53), a string is a [string], an array is a [list], a value of
    type [T | null] is an [option T]. *)

From Stdlib Require Import ZArith List String Ascii Bool Lia.
From Stdlib Require Import SpecFloat.
Import ListNotations.
Open Scope string_scope.
Open Scope list_scope.
Open Scope Z_scope.

(** ** JavaScript numbers, strings and the built-ins the page uses *)

Module JS.

Definition number := spec_float.

Definition prec : Z := 53.
Definition emax : Z := 1024.

Definition NaN : number := S754_nan.
Definition Infinity : number := S754_infinity false.
Definition zero : number := S754_zero false.

(** The number denoted by an integer literal such as [15000]. *)
Definition of_Z (z : Z) : number := binary_normalize prec emax z 0 false.

(** [x + y], [x - y], [x * y], [x / y] on numbers. *)
Definition add (x y : number) : number := SFadd prec emax x y.
Definition sub (x y : number) : number := SFsub prec emax x y.
Definition mul (x y : number) : number := SFmul prec emax x y.
Definition div (x y : number) : number := SFdiv prec emax x y.

(** [x < y], [x <= y], [x > y], [x >= y]; all false when an operand is
    [NaN]. *)
Definition lt (x y : number) : bool := SFltb x y.
Definition le (x y : number) : bool := SFleb x y.
Definition gt (x y : number) : bool := SFltb y x.
Definition ge (x y : number) : bool := SFleb y x.

Definition isNaN (x : number) : bool :=
  match x with S754_nan => true | _ => false end.

(** [ToBoolean]: a number is falsy when it is [+0], [-0] or [NaN]; a string
    is falsy when it is empty; [null] is falsy and an object is truthy. *)
Definition truthy_number (x : number) : bool :=
  match x with
  | S754_zero _ | S754_nan => false
  | _ => true
  end.

Definition truthy_string (s : string) : bool := negb (s =? "")%string.

Definition truthy_option {A} (o : option A) : bool :=
  match o with Some _ => true | None => false end.

(** [x || y] on numbers and on strings. *)
Definition or_number (x y : number) : number :=
  if truthy_number x then x else y.

Definition or_string (x y : string) : string :=
  if truthy_string x then x else y.

(** [Math.min(a, b)]: [NaN] when an argument is [NaN]; [-0] counts as
    smaller than [+0]. *)
Definition Math_min (a b : number) : number :=
  match a, b with
  | S754_nan, _ | _, S754_nan => NaN
  | S754_zero sa, S754_zero sb => S754_zero (sa || sb)
  | _, _ => if SFltb b a then b else a
  end.

(** *** [parseFloat]

    The longest prefix of the string, after leading white space, that is a
    [StrDecimalLiteral]; [NaN] when there is none.  A string is the bytes of
    its UTF-8 encoding.  The decimal value is
    rounded to the nearest binary64 number, ties to even. *)

Definition is_white_space (c : ascii) : bool :=
  let n := nat_of_ascii c in
  ((9 <=? n) && (n <=? 13) || (n =? 32))%nat.

(** The white space and line terminators outside ASCII, as the two and three
    bytes of their UTF-8 encoding: U+00A0; U+1680, U+2000 to U+200A, U+2028,
    U+2029, U+202F, U+205F, U+3000 and U+FEFF. *)
Definition is_white_space2 (c1 c2 : ascii) : bool :=
  ((nat_of_ascii c1 =? 194) && (nat_of_ascii c2 =? 160))%nat.

Definition is_white_space3 (c1 c2 c3 : ascii) : bool :=
  let '(n1, n2, n3) := (nat_of_ascii c1, nat_of_ascii c2, nat_of_ascii c3) in
  ((n1 =? 225) && (n2 =? 154) && (n3 =? 128)
   || (n1 =? 226) && (n2 =? 128)
      && ((128 <=? n3) && (n3 <=? 138) || (n3 =? 168) || (n3 =? 169) || (n3 =? 175))
   || (n1 =? 226) && (n2 =? 129) && (n3 =? 159)
   || (n1 =? 227) && (n2 =? 128) && (n3 =? 128)
   || (n1 =? 239) && (n2 =? 187) && (n3 =? 191))%nat.

Definition digit_of (c : ascii) : option Z :=
  let n := Z.of_nat (nat_of_ascii c) in
  if (48 <=? n) && (n <=? 57) then Some (n - 48) else None.

Fixpoint trim_start (s : string) : string :=
  match s with
  | String c1 s1 =>
      if is_white_space c1 then trim_start s1
      else
        match s1 with
        | String c2 s2 =>
            if is_white_space2 c1 c2 then trim_start s2
            else
              match s2 with
              | String c3 s3 =>
                  if is_white_space3 c1 c2 c3 then trim_start s3 else s
              | EmptyString => s
              end
        | EmptyString => s
        end
  | EmptyString => s
  end.

(** [digits acc n s] reads the decimal digits at the head of [s]: the value
    of the digits read after [acc], how many were read after [n], and the
    rest of the string. *)
Fixpoint digits (acc : Z) (n : Z) (s : string) : Z * Z * string :=
  match s with
  | String c s' =>
      match digit_of c with
      | Some d => digits (10 * acc + d) (n + 1) s'
      | None => (acc, n, s)
      end
  | EmptyString => (acc, n, s)
  end.

(** The sign at the head of a string: [true] for [-]. *)
Definition sign (s : string) : bool * string :=
  match s with
  | String "-" s' => (true, s')
  | String "+" s' => (false, s')
  | _ => (false, s)
  end.

(** [ExponentPart]: [e] or [E], an optional sign, at least one digit.  The
    exponent is 0 when the part is absent or incomplete (the prefix then
    ends before it). *)
Definition exponent_part (s : string) : Z * string :=
  match s with
  | String c s' =>
      if (Ascii.eqb c "e" || Ascii.eqb c "E")%bool then
        let '(neg, s1) := sign s' in
        let '(e, n, rest) := digits 0 0 s1 in
        if n =? 0 then (0, s) else ((if neg then - e else e), rest)
      else (0, s)
  | EmptyString => (0, s)
  end.

(** The binary64 number nearest to [(-1)^neg * m * 10^e]. *)
Definition of_decimal (neg : bool) (m : Z) (e : Z) : number :=
  match m with
  | Zpos p =>
      if 0 <=? e then
        binary_normalize prec emax (if neg then - (m * 10 ^ e) else m * 10 ^ e) 0 neg
      else
        let '(q, e', l) := SFdiv_core_binary prec emax m 0 (10 ^ (- e)) 0 in
        binary_round_aux prec emax neg q e' l
  | _ => S754_zero neg
  end.

Definition parseFloat (input : string) : number :=
  let '(neg, s) := sign (trim_start input) in
  if prefix "Infinity" s then S754_infinity neg
  else
    let '(i, ni, s1) := digits 0 0 s in
    match s1 with
    | String "." s2 =>
        let '(m, nf, s3) := digits i 0 s2 in
        if (ni =? 0) && (nf =? 0) then NaN
        else
          let '(e, _) := exponent_part s3 in
          of_decimal neg m (e - nf)
    | _ =>
        if ni =? 0 then NaN
        else
          let '(e, _) := exponent_part s1 in
          of_decimal neg i e
    end.

End JS.

(** ** Form controls

    The dialogs' [<Input>] elements carry the constraints [required],
    [type="number"] and [min].  The browser checks them when a form is
    submitted and does not fire the submit event when one fails.  A control of
    type number holds the empty string or a valid floating-point number; the
    [step] constraint and the range of binary64 are not modelled, they only
    reject more values: what is shown of every value that the model accepts
    holds of every value that a browser accepts.  The sample inputs below
    are whole numbers, or have two decimals where the input has
    [step="0.01"], which a browser accepts as well. *)

Module HTML.

(** A valid floating-point number: an optional [-], digits and/or a [.]
    followed by digits, an optional exponent; nothing else. *)
Definition valid_floating_point_number (value : string) : bool :=
  let s := match value with String "-" s' => s' | _ => value end in
  let '(_, ni, s1) := JS.digits 0 0 s in
  let '(nf, s3) :=
    match s1 with
    | String "." s2 => let '(_, nf, s3) := JS.digits 0 0 s2 in (nf, s3)
    | _ => (1, s1)
    end in
  (0 <? nf) && ((0 <? ni) || (prefix "." s1)) &&
  match s3 with
  | EmptyString => true
  | String c s4 =>
      (Ascii.eqb c "e" || Ascii.eqb c "E") &&
      (let '(_, s5) := JS.sign s4 in
       let '(_, ne, rest) := JS.digits 0 0 s5 in
       (0 <? ne) && (rest =? "")%string)
  end.

(** [<input required>] of type text. *)
Definition text_checkValidity (required : bool) (value : string) : bool :=
  if (value =? "")%string then negb required else true.

(** [<input type="number" required min=...>]. *)
Definition number_checkValidity (required : bool) (min : option JS.number)
    (value : string) : bool :=
  if (value =? "")%string then negb required
  else
    valid_floating_point_number value &&
    match min with
    | Some m => JS.le m (JS.parseFloat value)
    | None => true
    end.

End HTML.

(** [crypto.randomUUID()] returns 36 characters: lower-case hexadecimal digits
    with a [-] at positions 8, 13, 18 and 23.  The value it returns is an
    input of the model. *)
Module Crypto.

Definition is_hex (c : ascii) : bool :=
  let n := nat_of_ascii c in
  ((48 <=? n) && (n <=? 57) || (97 <=? n) && (n <=? 102))%nat.

Fixpoint uuid_chars (i : nat) (s : string) : bool :=
  match s with
  | EmptyString => (i =? 36)%nat
  | String c s' =>
      (if ((i =? 8) || (i =? 13) || (i =? 18) || (i =? 23))%nat
       then Ascii.eqb c "-" else is_hex c)
      && uuid_chars (S i) s'
  end.

Definition is_uuid (s : string) : bool := uuid_chars 0 s.

End Crypto.

(** ** The records *)

Module Budget.
Record t := mk {
  id : string;
  category : string;
  emoji : string;
  spent : JS.number;
  limit : JS.number;
  color : string
}.
End Budget.

Module Goal.
Record t := mk {
  id : string;
  title : string;
  emoji : string;
  saved : JS.number;
  target : JS.number;
  deadline : string
}.

(** [{ ...g, saved: v }] *)
Definition with_saved (g : t) (v : JS.number) : t :=
  mk (id g) (title g) (emoji g) v (target g) (deadline g).
End Goal.

(** ** BudgetFormDialog *)

Module BudgetFormDialog.

(** The form state of the dialog: the four [useState] strings, as they are
    when the form is submitted.  The effect that fills them in when the
    dialog opens (from the budget that is edited, or with the defaults) is
    not part of the model: the user can change every field afterwards. *)
Record form := mkForm {
  category : string;
  emoji : string;
  limit : string;
  color : string
}.

(** [handleSubmit]: the budget handed to [onSave].  [uuid] is what
    [crypto.randomUUID()] returns when it is called. *)
Definition handleSubmit (budget : option Budget.t) (uuid : string) (f : form)
    : Budget.t :=
  Budget.mk
    (JS.or_string (match budget with Some b => Budget.id b | None => "" end) uuid)
    (category f)
    (emoji f)
    (match budget with
     | Some b => JS.or_number (Budget.spent b) JS.zero
     | None => JS.zero
     end)
    (JS.or_number (JS.parseFloat (limit f)) JS.zero)
    (color f).

(** The submit button: [disabled={!category || !limit}]. *)
Definition disabled (f : form) : bool :=
  negb (JS.truthy_string (category f)) || negb (JS.truthy_string (limit f)).

(** Constraint validation of the form's controls: the category is required;
    the limit is a required number with [min="0"]. *)
Definition checkValidity (f : form) : bool :=
  HTML.text_checkValidity true (category f) &&
  HTML.number_checkValidity true (Some JS.zero) (limit f).

(** Submitting the form: [None] when the button is disabled or validation
    fails (the submit event does not fire, [onSave] is not called),
    otherwise the budget passed to [onSave]. *)
Definition submit (budget : option Budget.t) (uuid : string) (f : form)
    : option Budget.t :=
  if disabled f then None
  else if checkValidity f then Some (handleSubmit budget uuid f)
  else None.

End BudgetFormDialog.

(** ** GoalFormDialog *)

Module GoalFormDialog.

Record form := mkForm {
  title : string;
  emoji : string;
  target : string;
  saved : string;
  deadline : string
}.

Definition handleSubmit (goal : option Goal.t) (uuid : string) (f : form)
    : Goal.t :=
  Goal.mk
    (JS.or_string (match goal with Some g => Goal.id g | None => "" end) uuid)
    (title f)
    (emoji f)
    (JS.or_number (JS.parseFloat (saved f)) JS.zero)
    (JS.or_number (JS.parseFloat (target f)) JS.zero)
    (deadline f).

(** [disabled={!title || !target || !deadline}] *)
Definition disabled (f : form) : bool :=
  negb (JS.truthy_string (title f)) || negb (JS.truthy_string (target f))
  || negb (JS.truthy_string (deadline f)).

(** Title, target and deadline are required; target has [min="0"]; the
    saved amount is shown only when a goal is edited and has [min="0"]. *)
Definition checkValidity (goal : option Goal.t) (f : form) : bool :=
  HTML.text_checkValidity true (title f) &&
  HTML.number_checkValidity true (Some JS.zero) (target f) &&
  (if JS.truthy_option goal
   then HTML.number_checkValidity false (Some JS.zero) (saved f)
   else true) &&
  HTML.text_checkValidity true (deadline f).

Definition submit (goal : option Goal.t) (uuid : string) (f : form)
    : option Goal.t :=
  if disabled f then None
  else if checkValidity goal f then Some (handleSubmit goal uuid f)
  else None.

End GoalFormDialog.

(** ** AddSavingsDialog *)

Module AddSavingsDialog.

Definition QUICK_AMOUNTS : list JS.number :=
  [JS.of_Z 1000; JS.of_Z 2500; JS.of_Z 5000; JS.of_Z 10000].

Definition currentAmount (amount : string) : JS.number :=
  JS.or_number (JS.parseFloat amount) JS.zero.

Definition newTotal (goal : Goal.t) (amount : string) : JS.number :=
  JS.add (Goal.saved goal) (currentAmount amount).

(** The width of the preview bar, in percent. *)
Definition newPercentage (goal : Goal.t) (amount : string) : JS.number :=
  JS.Math_min
    (JS.mul (JS.div (newTotal goal amount) (Goal.target goal)) (JS.of_Z 100))
    (JS.of_Z 100).

(** [handleSubmit]: the arguments of [onSave], when it is called. *)
Definition handleSubmit (goal : option Goal.t) (amount : string)
    : option (string * JS.number) :=
  match goal with
  | Some g =>
      if JS.truthy_string amount
      then Some (Goal.id g, JS.parseFloat amount)
      else None
  | None => None
  end.

(** [disabled={!amount || currentAmount <= 0}] *)
Definition disabled (amount : string) : bool :=
  negb (JS.truthy_string amount) || JS.le (currentAmount amount) JS.zero.

(** The amount is a required number with [min="1"]. *)
Definition checkValidity (amount : string) : bool :=
  HTML.number_checkValidity true (Some (JS.of_Z 1)) amount.

(** [None] when the dialog renders nothing ([goal] is null), the button is
    disabled, validation fails or [handleSubmit] does not call [onSave]. *)
Definition submit (goal : option Goal.t) (amount : string)
    : option (string * JS.number) :=
  if disabled amount then None
  else if checkValidity amount then handleSubmit goal amount
  else None.

End AddSavingsDialog.

(** ** The page: BudgetPage *)

Module BudgetPage.

Definition INITIAL_BUDGETS : list Budget.t :=
  [ Budget.mk "1" "Food & Dining" "üçî" (JS.of_Z 12500) (JS.of_Z 15000) "bg-warning";
    Budget.mk "2" "Transport" "üöó" (JS.of_Z 5500) (JS.of_Z 6000) "bg-info";
    Budget.mk "3" "Shopping" "üõçÔ∏è" (JS.of_Z 8000) (JS.of_Z 12000) "bg-purple-accent";
    Budget.mk "4" "Entertainment" "üé¨" (JS.of_Z 4500) (JS.of_Z 4000) "bg-destructive";
    Budget.mk "5" "Healthcare" "üíä" (JS.of_Z 2000) (JS.of_Z 5000) "bg-emerald" ].

Definition INITIAL_GOALS : list Goal.t :=
  [ Goal.mk "1" "Emergency Fund" "üè¶" (JS.of_Z 150000) (JS.of_Z 300000) "Dec 2026";
    Goal.mk "2" "New Laptop" "üíª" (JS.of_Z 45000) (JS.of_Z 80000) "Jun 2026";
    Goal.mk "3" "Vacation Trip" "‚úàÔ∏è" (JS.of_Z 25000) (JS.of_Z 100000) "Oct 2026" ].

Inductive tab := TabBudget | TabGoals.

(** The [useState] cells of the page. *)
Record state := mkState {
  activeTab : tab;
  budgets : list Budget.t;
  goals : list Goal.t;
  budgetFormOpen : bool;
  editingBudget : option Budget.t;
  deleteBudgetOpen : bool;
  budgetToDelete : option Budget.t;
  goalFormOpen : bool;
  editingGoal : option Goal.t;
  deleteGoalOpen : bool;
  goalToDelete : option Goal.t;
  addSavingsOpen : bool;
  goalForSavings : option Goal.t
}.

Definition initial : state :=
  mkState TabBudget INITIAL_BUDGETS INITIAL_GOALS
    false None false None false None false None false None.

(** The state setters.  [setBudgets] and [setGoals] take the updater
    function, as the handlers call them. *)
Definition setActiveTab (v : tab) (s : state) : state :=
  mkState v (budgets s) (goals s) (budgetFormOpen s) (editingBudget s)
    (deleteBudgetOpen s) (budgetToDelete s) (goalFormOpen s) (editingGoal s)
    (deleteGoalOpen s) (goalToDelete s) (addSavingsOpen s) (goalForSavings s).

Definition setBudgets (f : list Budget.t -> list Budget.t) (s : state) : state :=
  mkState (activeTab s) (f (budgets s)) (goals s) (budgetFormOpen s) (editingBudget s)
    (deleteBudgetOpen s) (budgetToDelete s) (goalFormOpen s) (editingGoal s)
    (deleteGoalOpen s) (goalToDelete s) (addSavingsOpen s) (goalForSavings s).

Definition setGoals (f : list Goal.t -> list Goal.t) (s : state) : state :=
  mkState (activeTab s) (budgets s) (f (goals s)) (budgetFormOpen s) (editingBudget s)
    (deleteBudgetOpen s) (budgetToDelete s) (goalFormOpen s) (editingGoal s)
    (deleteGoalOpen s) (goalToDelete s) (addSavingsOpen s) (goalForSavings s).

Definition setBudgetFormOpen (v : bool) (s : state) : state :=
  mkState (activeTab s) (budgets s) (goals s) v (editingBudget s)
    (deleteBudgetOpen s) (budgetToDelete s) (goalFormOpen s) (editingGoal s)
    (deleteGoalOpen s) (goalToDelete s) (addSavingsOpen s) (goalForSavings s).

Definition setEditingBudget (v : option Budget.t) (s : state) : state :=
  mkState (activeTab s) (budgets s) (goals s) (budgetFormOpen s) v
    (deleteBudgetOpen s) (budgetToDelete s) (goalFormOpen s) (editingGoal s)
    (deleteGoalOpen s) (goalToDelete s) (addSavingsOpen s) (goalForSavings s).

Definition setDeleteBudgetOpen (v : bool) (s : state) : state :=
  mkState (activeTab s) (budgets s) (goals s) (budgetFormOpen s) (editingBudget s)
    v (budgetToDelete s) (goalFormOpen s) (editingGoal s)
    (deleteGoalOpen s) (goalToDelete s) (addSavingsOpen s) (goalForSavings s).

Definition setBudgetToDelete (v : option Budget.t) (s : state) : state :=
  mkState (activeTab s) (budgets s) (goals s) (budgetFormOpen s) (editingBudget s)
    (deleteBudgetOpen s) v (goalFormOpen s) (editingGoal s)
    (deleteGoalOpen s) (goalToDelete s) (addSavingsOpen s) (goalForSavings s).

Definition setGoalFormOpen (v : bool) (s : state) : state :=
  mkState (activeTab s) (budgets s) (goals s) (budgetFormOpen s) (editingBudget s)
    (deleteBudgetOpen s) (budgetToDelete s) v (editingGoal s)
    (deleteGoalOpen s) (goalToDelete s) (addSavingsOpen s) (goalForSavings s).

Definition setEditingGoal (v : option Goal.t) (s : state) : state :=
  mkState (activeTab s) (budgets s) (goals s) (budgetFormOpen s) (editingBudget s)
    (deleteBudgetOpen s) (budgetToDelete s) (goalFormOpen s) v
    (deleteGoalOpen s) (goalToDelete s) (addSavingsOpen s) (goalForSavings s).

Definition setDeleteGoalOpen (v : bool) (s : state) : state :=
  mkState (activeTab s) (budgets s) (goals s) (budgetFormOpen s) (editingBudget s)
    (deleteBudgetOpen s) (budgetToDelete s) (goalFormOpen s) (editingGoal s)
    v (goalToDelete s) (addSavingsOpen s) (goalForSavings s).

Definition setGoalToDelete (v : option Goal.t) (s : state) : state :=
  mkState (activeTab s) (budgets s) (goals s) (budgetFormOpen s) (editingBudget s)
    (deleteBudgetOpen s) (budgetToDelete s) (goalFormOpen s) (editingGoal s)
    (deleteGoalOpen s) v (addSavingsOpen s) (goalForSavings s).

Definition setAddSavingsOpen (v : bool) (s : state) : state :=
  mkState (activeTab s) (budgets s) (goals s) (budgetFormOpen s) (editingBudget s)
    (deleteBudgetOpen s) (budgetToDelete s) (goalFormOpen s) (editingGoal s)
    (deleteGoalOpen s) (goalToDelete s) v (goalForSavings s).

Definition setGoalForSavings (v : option Goal.t) (s : state) : state :=
  mkState (activeTab s) (budgets s) (goals s) (budgetFormOpen s) (editingBudget s)
    (deleteBudgetOpen s) (budgetToDelete s) (goalFormOpen s) (editingGoal s)
    (deleteGoalOpen s) (goalToDelete s) (addSavingsOpen s) v.

(** *** Budget handlers

    [toast.success] shows a notification and leaves the state alone; it is
    not modelled. *)

Definition handleAddBudget (s : state) : state :=
  setBudgetFormOpen true (setEditingBudget None s).

Definition handleEditBudget (budget : Budget.t) (s : state) : state :=
  setBudgetFormOpen true (setEditingBudget (Some budget) s).

Definition handleSaveBudget (budgetData : Budget.t) (s : state) : state :=
  if JS.truthy_option (editingBudget s) then
    setBudgets
      (fun prev =>
         map (fun b => if (Budget.id b =? Budget.id budgetData)%string
                       then budgetData else b) prev) s
  else
    setBudgets (fun prev => prev ++ [budgetData]) s.

Definition handleDeleteBudgetClick (budget : Budget.t) (s : state) : state :=
  setDeleteBudgetOpen true (setBudgetToDelete (Some budget) s).

Definition handleConfirmDeleteBudget (s : state) : state :=
  match budgetToDelete s with
  | Some toDelete =>
      setDeleteBudgetOpen false
        (setBudgetToDelete None
           (setBudgets
              (fun prev =>
                 filter (fun b => negb (Budget.id b =? Budget.id toDelete)%string) prev)
              s))
  | None => s
  end.

(** *** Goal handlers *)

Definition handleAddGoal (s : state) : state :=
  setGoalFormOpen true (setEditingGoal None s).

Definition handleEditGoal (goal : Goal.t) (s : state) : state :=
  setGoalFormOpen true (setEditingGoal (Some goal) s).

Definition handleSaveGoal (goalData : Goal.t) (s : state) : state :=
  if JS.truthy_option (editingGoal s) then
    setGoals
      (fun prev =>
         map (fun g => if (Goal.id g =? Goal.id goalData)%string
                       then goalData else g) prev) s
  else
    setGoals (fun prev => prev ++ [goalData]) s.

Definition handleDeleteGoalClick (goal : Goal.t) (s : state) : state :=
  setDeleteGoalOpen true (setGoalToDelete (Some goal) s).

Definition handleConfirmDeleteGoal (s : state) : state :=
  match goalToDelete s with
  | Some toDelete =>
      setDeleteGoalOpen false
        (setGoalToDelete None
           (setGoals
              (fun prev =>
                 filter (fun g => negb (Goal.id g =? Goal.id toDelete)%string) prev)
              s))
  | None => s
  end.

Definition handleAddSavingsClick (goal : Goal.t) (s : state) : state :=
  setAddSavingsOpen true (setGoalForSavings (Some goal) s).

Definition handleAddSavings (goalId : string) (amount : JS.number) (s : state)
    : state :=
  setGoals
    (fun prev =>
       map (fun g => if (Goal.id g =? goalId)%string
                     then Goal.with_saved g (JS.add (Goal.saved g) amount)
                     else g) prev) s.

(** *** Computed values *)

Definition totalBudget (s : state) : JS.number :=
  fold_left (fun sum b => JS.add sum (Budget.limit b)) (budgets s) JS.zero.

Definition totalSpent (s : state) : JS.number :=
  fold_left (fun sum b => JS.add sum (Budget.spent b)) (budgets s) JS.zero.

Definition totalSaved (s : state) : JS.number :=
  fold_left (fun sum g => JS.add sum (Goal.saved g)) (goals s) JS.zero.

Definition totalTarget (s : state) : JS.number :=
  fold_left (fun sum g => JS.add sum (Goal.target g)) (goals s) JS.zero.

(** *** What is rendered: the widths of the progress bars, in percent *)

(** The overview bar of the budget tab. *)
Definition monthlyBudgetWidth (s : state) : JS.number :=
  JS.Math_min (JS.mul (JS.div (totalSpent s) (totalBudget s)) (JS.of_Z 100))
    (JS.of_Z 100).

(** A row of the budget list: [percentage], [isOver] and the bar. *)
Definition budget_percentage (budget : Budget.t) : JS.number :=
  JS.mul (JS.div (Budget.spent budget) (Budget.limit budget)) (JS.of_Z 100).

Definition budget_isOver (budget : Budget.t) : bool :=
  JS.gt (Budget.spent budget) (Budget.limit budget).

Definition budget_width (budget : Budget.t) : JS.number :=
  JS.Math_min (budget_percentage budget) (JS.of_Z 100).

(** The overview bar of the goals tab. *)
Definition goalsOverviewWidth (s : state) : JS.number :=
  JS.mul (JS.div (totalSaved s) (totalTarget s)) (JS.of_Z 100).

(** A row of the goals list: [percentage], [isComplete] and the bar. *)
Definition goal_percentage (goal : Goal.t) : JS.number :=
  JS.mul (JS.div (Goal.saved goal) (Goal.target goal)) (JS.of_Z 100).

Definition goal_isComplete (goal : Goal.t) : bool :=
  JS.ge (Goal.saved goal) (Goal.target goal).

Definition goal_width (goal : Goal.t) : JS.number :=
  JS.Math_min (goal_percentage goal) (JS.of_Z 100).

(** *** The user's actions

    What the rendered page lets the user do.  A button of a list row is
    named by the row's index; [ClickAdd] is the add button of the header
    (the add button of an empty list does the same).  The dialogs are wired
    as the page renders them: [onSave] is the page's save handler,
    [onOpenChange] the setter of the dialog's open flag, and a confirmed
    deletion also closes its dialog.  That an open dialog keeps the user
    from the rest of the page is not assumed: the actions of the page stay
    possible while a dialog is open. *)

Inductive event :=
| SelectTab (t : tab)
| ClickAdd
| ClickEditBudget (i : nat)
| ClickDeleteBudget (i : nat)
| SubmitBudgetForm (f : BudgetFormDialog.form) (uuid : string)
| CloseBudgetForm
| ConfirmDeleteBudget
| CloseDeleteBudget
| ClickEditGoal (i : nat)
| ClickDeleteGoal (i : nat)
| ClickAddSavings (i : nat)
| SubmitGoalForm (f : GoalFormDialog.form) (uuid : string)
| CloseGoalForm
| ConfirmDeleteGoal
| CloseDeleteGoal
| SubmitAddSavings (amount : string)
| CloseAddSavings.

Definition is_budget_tab (s : state) : bool :=
  match activeTab s with TabBudget => true | TabGoals => false end.

(** [step s e]: the state after the action [e]; [None] when the page in
    state [s] does not offer it. *)
Definition step (s : state) (e : event) : option state :=
  match e with
  | SelectTab t => Some (setActiveTab t s)
  | ClickAdd =>
      Some (if is_budget_tab s then handleAddBudget s else handleAddGoal s)
  | ClickEditBudget i =>
      match nth_error (budgets s) i with
      | Some b => if is_budget_tab s then Some (handleEditBudget b s) else None
      | None => None
      end
  | ClickDeleteBudget i =>
      match nth_error (budgets s) i with
      | Some b => if is_budget_tab s then Some (handleDeleteBudgetClick b s) else None
      | None => None
      end
  | SubmitBudgetForm f uuid =>
      if budgetFormOpen s && Crypto.is_uuid uuid then
        match BudgetFormDialog.submit (editingBudget s) uuid f with
        | Some budgetData =>
            Some (setBudgetFormOpen false (handleSaveBudget budgetData s))
        | None => Some s
        end
      else None
  | CloseBudgetForm =>
      if budgetFormOpen s then Some (setBudgetFormOpen false s) else None
  | ConfirmDeleteBudget =>
      if deleteBudgetOpen s
      then Some (setDeleteBudgetOpen false (handleConfirmDeleteBudget s))
      else None
  | CloseDeleteBudget =>
      if deleteBudgetOpen s then Some (setDeleteBudgetOpen false s) else None
  | ClickEditGoal i =>
      match nth_error (goals s) i with
      | Some g => if is_budget_tab s then None else Some (handleEditGoal g s)
      | None => None
      end
  | ClickDeleteGoal i =>
      match nth_error (goals s) i with
      | Some g => if is_budget_tab s then None else Some (handleDeleteGoalClick g s)
      | None => None
      end
  | ClickAddSavings i =>
      match nth_error (goals s) i with
      | Some g =>
          if is_budget_tab s || goal_isComplete g then None
          else Some (handleAddSavingsClick g s)
      | None => None
      end
  | SubmitGoalForm f uuid =>
      if goalFormOpen s && Crypto.is_uuid uuid then
        match GoalFormDialog.submit (editingGoal s) uuid f with
        | Some goalData =>
            Some (setGoalFormOpen false (handleSaveGoal goalData s))
        | None => Some s
        end
      else None
  | CloseGoalForm =>
      if goalFormOpen s then Some (setGoalFormOpen false s) else None
  | ConfirmDeleteGoal =>
      if deleteGoalOpen s
      then Some (setDeleteGoalOpen false (handleConfirmDeleteGoal s))
      else None
  | CloseDeleteGoal =>
      if deleteGoalOpen s then Some (setDeleteGoalOpen false s) else None
  | SubmitAddSavings amount =>
      if addSavingsOpen s then
        match AddSavingsDialog.submit (goalForSavings s) amount with
        | Some (goalId, n) =>
            Some (setAddSavingsOpen false (handleAddSavings goalId n s))
        | None => Some s
        end
      else None
  | CloseAddSavings =>
      if addSavingsOpen s then Some (setAddSavingsOpen false s) else None
  end.

(** The state after a sequence of actions. *)
Fixpoint run (s : state) (es : list event) : option state :=
  match es with
  | [] => Some s
  | e :: es' =>
      match step s e with
      | Some s' => run s' es'
      | None => None
      end
  end.

(** The states the page can be in. *)
Definition reachable (s : state) : Prop :=
  exists es, run initial es = Some s.

End BudgetPage.

(** ** Specification-side definitions *)

Module Spec.

(** The sum of the first [n] terms of a sequence of numbers, added with the
    [+] of the program, one term after the other: the empty sum is 0, and the
    sum of [n + 1] terms is the sum of the first [n] plus the next term.
    Every addition rounds to binary64, so this is the arithmetic sum only
    where no addition rounds. *)
Fixpoint sum_upto (a : nat -> JS.number) (n : nat) : JS.number :=
  match n with
  | O => JS.zero
  | S k => JS.add (sum_upto a k) (a k)
  end.

(** The sum of a field over all entries of a list. *)
Definition sum_over {A} (field : A -> JS.number) (l : list A) : JS.number :=
  sum_upto (fun i => nth i (map field l) JS.NaN) (List.length l).

(** The sum of a list of integers. *)
Definition sum_Z (zs : list Z) : Z := fold_right Z.add 0 zs.

(** The binary64 number of a positive integer below [2^53]: the mantissa is
    the integer shifted to 53 digits. *)
Definition canonical (p : positive) : JS.number :=
  S754_finite false
    (Z.to_pos (Zpos p * 2 ^ (53 - Zpos (digits2_pos p))))
    (Zpos (digits2_pos p) - 53).

(** The whole number that a number is, exactly: the mantissa times the
    power of two of the exponent, when that is an integer.  [None] for a
    number with a fractional part, for an infinity and for [NaN]. *)
Definition whole (x : JS.number) : option Z :=
  match x with
  | S754_zero _ => Some 0
  | S754_finite s m e =>
      let n := if s then Zneg m else Zpos m in
      match e with
      | Zneg k =>
          if n mod 2 ^ Zpos k =? 0 then Some (n / 2 ^ Zpos k) else None
      | _ => Some (n * 2 ^ e)
      end
  | S754_infinity _ | S754_nan => None
  end.

(** [total] is the exact sum of the field over the list whenever the values
    of the field are whole numbers from 0 up and their sum is below [2^53]:
    it is the binary64 number of the integer sum, and that number is the
    integer sum exactly. *)
Definition exact_total {A} (field : A -> JS.number) (l : list A)
    (total : JS.number) : Prop :=
  forall zs,
    map field l = map JS.of_Z zs ->
    Forall (Z.le 0) zs ->
    sum_Z zs < 2 ^ 53 ->
    total = JS.of_Z (sum_Z zs) /\ whole total = Some (sum_Z zs).

(** The id that a create action generates does not occur in the list it is
    added to. *)
Definition fresh_id (s : BudgetPage.state) (e : BudgetPage.event) : Prop :=
  match e with
  | BudgetPage.SubmitBudgetForm _ uuid =>
      BudgetPage.editingBudget s = None ->
      ~ In uuid (map Budget.id (BudgetPage.budgets s))
  | BudgetPage.SubmitGoalForm _ uuid =>
      BudgetPage.editingGoal s = None ->
      ~ In uuid (map Goal.id (BudgetPage.goals s))
  | _ => True
  end.

(** A budget as the page holds them: its id is not empty and its [spent]
    is a number that [|| 0] leaves alone. *)
Definition well_formed (b : Budget.t) : Prop :=
  Budget.id b <> "" /\ JS.or_number (Budget.spent b) JS.zero = Budget.spent b.

(** What holds of every state of the page: the budgets of the list and the
    budget being edited are well formed, and an item to delete has its id
    in the list. *)
Definition invariant (s : BudgetPage.state) : Prop :=
  Forall well_formed (BudgetPage.budgets s) /\
  (forall b, BudgetPage.editingBudget s = Some b -> well_formed b) /\
  (forall b, BudgetPage.budgetToDelete s = Some b ->
             In (Budget.id b) (map Budget.id (BudgetPage.budgets s))) /\
  (forall g, BudgetPage.goalToDelete s = Some g ->
             In (Goal.id g) (map Goal.id (BudgetPage.goals s))).

End Spec.

(** ** Sample inputs *)

Module Sample.

Definition uuid : string := "3b241101-e2bb-4255-8caf-4136c566a962".

(** A new budget with the limit 0. *)
Definition zero_limit : BudgetFormDialog.form :=
  BudgetFormDialog.mkForm "Rent" "🏠" "0" "bg-info".

(** A new goal with the target 0. *)
Definition zero_target : GoalFormDialog.form :=
  GoalFormDialog.mkForm "Bike" "🚗" "0" "0" "May 2027".

(** A new budget without a category, and a new goal without a deadline. *)
Definition no_category : BudgetFormDialog.form :=
  BudgetFormDialog.mkForm "" "🍔" "2500" "bg-warning".

Definition no_deadline : GoalFormDialog.form :=
  GoalFormDialog.mkForm "Bike" "🚗" "40000" "0" "".

(** A new budget and a new goal that pass validation. *)
Definition rent : BudgetFormDialog.form :=
  BudgetFormDialog.mkForm "Rent" "🏠" "20000" "bg-info".

(** The food budget of the initial page and an edit of it. *)
Definition food : Budget.t :=
  Budget.mk "1" "Food & Dining" "üçî" (JS.of_Z 12500) (JS.of_Z 15000) "bg-warning".

Definition groceries : BudgetFormDialog.form :=
  BudgetFormDialog.mkForm "Groceries" "💡" "9000" "bg-emerald".

(** Every budget of the initial page is deleted; the budget tab stays
    shown. *)
Definition delete_every_budget : list BudgetPage.event :=
  [ BudgetPage.ClickDeleteBudget 0; BudgetPage.ConfirmDeleteBudget;
    BudgetPage.ClickDeleteBudget 0; BudgetPage.ConfirmDeleteBudget;
    BudgetPage.ClickDeleteBudget 0; BudgetPage.ConfirmDeleteBudget;
    BudgetPage.ClickDeleteBudget 0; BudgetPage.ConfirmDeleteBudget;
    BudgetPage.ClickDeleteBudget 0; BudgetPage.ConfirmDeleteBudget ]%nat.

(** The goals tab is selected and every goal of the initial page is
    deleted. *)
Definition delete_every_goal : list BudgetPage.event :=
  [ BudgetPage.SelectTab BudgetPage.TabGoals;
    BudgetPage.ClickDeleteGoal 0; BudgetPage.ConfirmDeleteGoal;
    BudgetPage.ClickDeleteGoal 0; BudgetPage.ConfirmDeleteGoal;
    BudgetPage.ClickDeleteGoal 0; BudgetPage.ConfirmDeleteGoal ]%nat.

(** 1000000 is added to the emergency fund of the initial page. *)
Definition save_a_million : list BudgetPage.event :=
  [ BudgetPage.SelectTab BudgetPage.TabGoals;
    BudgetPage.ClickAddSavings 0%nat;
    BudgetPage.SubmitAddSavings "1000000" ].

(** The emergency fund of the initial page is edited to have saved
    9007199254740992, which is [2^53], of a target of 18014398509481984,
    which is [2^54]; then its add-savings dialog is opened. *)
Definition large_fund : GoalFormDialog.form :=
  GoalFormDialog.mkForm "Emergency Fund" "🏦" "18014398509481984"
    "9007199254740992" "Dec 2026".

Definition open_savings_of_large_fund : list BudgetPage.event :=
  [ BudgetPage.SelectTab BudgetPage.TabGoals;
    BudgetPage.ClickEditGoal 0%nat;
    BudgetPage.SubmitGoalForm large_fund uuid;
    BudgetPage.ClickAddSavings 0%nat ].

(** Three budgets are added to the initial page, with the limits
    9007199254740992, 1 and 1. *)
Definition uuid2 : string := "9f1c2d3e-4b5a-4c6d-8e7f-0a1b2c3d4e5f".
Definition uuid3 : string := "0e7d6c5b-4a39-4821-9706-f5e4d3c2b1a0".

Definition large_limit : BudgetFormDialog.form :=
  BudgetFormDialog.mkForm "House" "🏠" "9007199254740992" "bg-info".

Definition limit_of_one (category : string) : BudgetFormDialog.form :=
  BudgetFormDialog.mkForm category "💡" "1" "bg-warning".

Definition add_large_and_small_budgets : list BudgetPage.event :=
  [ BudgetPage.ClickAdd; BudgetPage.SubmitBudgetForm large_limit uuid;
    BudgetPage.ClickAdd; BudgetPage.SubmitBudgetForm (limit_of_one "Stamps") uuid2;
    BudgetPage.ClickAdd; BudgetPage.SubmitBudgetForm (limit_of_one "Matches") uuid3 ].

End Sample.

(** ** The overview text of the budget tab *)

Module BudgetSummary.

(** The line under the overview bar: an amount that remains, or an amount by
    which the budget is exceeded. *)
Inductive text :=
| remaining (amount : JS.number)
| over_budget_by (amount : JS.number).

(** [totalBudget - totalSpent > 0 ? ... remaining : Over budget by ...] *)
Definition of_page (s : BudgetPage.state) : text :=
  if JS.gt (JS.sub (BudgetPage.totalBudget s) (BudgetPage.totalSpent s)) JS.zero
  then remaining (JS.sub (BudgetPage.totalBudget s) (BudgetPage.totalSpent s))
  else over_budget_by (JS.sub (BudgetPage.totalSpent s) (BudgetPage.totalBudget s)).

End BudgetSummary.

(** ** BudgetProgress: the budget card of the dashboard *)

Module BudgetProgress.

Record BudgetCategory := mk {
  name : string;
  spent : JS.number;
  budget : JS.number;
  color : string
}.

Definition budgetCategories : list BudgetCategory :=
  [ mk "Food & Dining" (JS.of_Z 12500) (JS.of_Z 15000) "bg-warning";
    mk "Transport" (JS.of_Z 5500) (JS.of_Z 6000) "bg-info";
    mk "Entertainment" (JS.of_Z 4500) (JS.of_Z 4000) "bg-destructive";
    mk "Shopping" (JS.of_Z 8000) (JS.of_Z 12000) "bg-emerald" ].

(** The width of a category's bar, in percent. *)
Definition percentage (category : BudgetCategory) : JS.number :=
  JS.Math_min
    (JS.mul (JS.div (spent category) (budget category)) (JS.of_Z 100))
    (JS.of_Z 100).

Definition isOverBudget (category : BudgetCategory) : bool :=
  JS.gt (spent category) (budget category).

(** The colour class of the bar. *)
Definition barColor (category : BudgetCategory) : string :=
  if isOverBudget category then "!bg-destructive" else color category.

End BudgetProgress.

(** ** FinancialHealthScore: the colour and the label of a score *)

Module FinancialHealthScore.

Definition getScoreColor (score : JS.number) : string :=
  if JS.ge score (JS.of_Z 80) then "text-emerald"
  else if JS.ge score (JS.of_Z 60) then "text-warning"
  else "text-destructive".

Definition getScoreLabel (score : JS.number) : string :=
  if JS.ge score (JS.of_Z 80) then "Excellent"
  else if JS.ge score (JS.of_Z 60) then "Good"
  else if JS.ge score (JS.of_Z 40) then "Fair"
  else "Needs Attention".

End FinancialHealthScore.

(** ** AddTransaction: the add-transaction page *)

Module AddTransaction.

Inductive TransactionType := income | expense.

Record Category := mkCategory { name : string; emoji : string }.

Definition categories (t : TransactionType) : list Category :=
  match t with
  | expense =>
      [ mkCategory "Food & Dining" "🍔"; mkCategory "Transport" "🚗";
        mkCategory "Shopping" "🛍️"; mkCategory "Entertainment" "🎬";
        mkCategory "Housing" "🏠"; mkCategory "Healthcare" "💊";
        mkCategory "Education" "📚"; mkCategory "Others" "📦" ]
  | income =>
      [ mkCategory "Salary" "💰"; mkCategory "Freelance" "💻";
        mkCategory "Investment" "📈"; mkCategory "Gift" "🎁";
        mkCategory "Refund" "↩️"; mkCategory "Others" "📦" ]
  end.

(** [searchParams.get("type") === "income" ? "income" : "expense"]; the
    parameter is [null] when the URL has none. *)
Definition initialType (param : option string) : TransactionType :=
  match param with
  | Some v => if (v =? "income")%string then income else expense
  | None => expense
  end.

(** The form state of the page. *)
Record form := mkForm {
  type : TransactionType;
  amount : string;
  selectedCategory : string;
  note : string;
  date : string
}.

(** What a handler shows and where it goes. *)
Inductive toast :=
| toast_error (message : string)
| toast_success (message : string).

Record outcome := mkOutcome {
  shown : toast;
  navigate : option string
}.

Definition handleSubmit (f : form) : outcome :=
  if negb (JS.truthy_string (amount f)) || negb (JS.truthy_string (selectedCategory f))
  then mkOutcome (toast_error "Please fill in all required fields") None
  else
    let amountNum := JS.parseFloat (amount f) in
    if JS.isNaN amountNum || JS.le amountNum JS.zero
    then mkOutcome (toast_error "Please enter a valid amount") None
    else
      mkOutcome
        (toast_success
           (String.append
              (match type f with income => "Income" | expense => "Expense" end)
              " added successfully!"))
        (Some "/").

(** [setType(newType); setSelectedCategory("")] *)
Definition handleTypeChange (newType : TransactionType) (f : form) : form :=
  mkForm newType (amount f) "" (note f) (date f).

(** [setSelectedCategory(category.name)], for a category of the grid. *)
Definition selectCategory (category : Category) (f : form) : form :=
  mkForm (type f) (amount f) (name category) (note f) (date f).

End AddTransaction.

(** ** Further specification-side definitions *)

Module PageSpec.

(** The actions that can change the list of budgets, and those that can
    change the list of goals. *)
Definition writes_budgets (e : BudgetPage.event) : bool :=
  match e with
  | BudgetPage.SubmitBudgetForm _ _ | BudgetPage.ConfirmDeleteBudget => true
  | _ => false
  end.

Definition writes_goals (e : BudgetPage.event) : bool :=
  match e with
  | BudgetPage.SubmitGoalForm _ _ | BudgetPage.ConfirmDeleteGoal
  | BudgetPage.SubmitAddSavings _ => true
  | _ => false
  end.

(** The amounts that the page never lets go below zero: the limit and the
    spent of a budget, the target of a goal.  A goal keeps a non-empty id. *)
Definition budget_amounts_ok (b : Budget.t) : Prop :=
  JS.ge (Budget.limit b) JS.zero = true /\ JS.ge (Budget.spent b) JS.zero = true.

Definition goal_ok (g : Goal.t) : Prop :=
  JS.ge (Goal.target g) JS.zero = true /\ Goal.id g <> "".

Definition amounts_invariant (s : BudgetPage.state) : Prop :=
  Forall budget_amounts_ok (BudgetPage.budgets s) /\
  (forall b, BudgetPage.editingBudget s = Some b -> budget_amounts_ok b) /\
  Forall goal_ok (BudgetPage.goals s) /\
  (forall g, BudgetPage.editingGoal s = Some g -> goal_ok g).

(** [Number.isFinite]: neither an infinity nor [NaN]. *)
Definition is_finite (x : JS.number) : bool :=
  match x with
  | S754_zero _ | S754_finite _ _ _ => true
  | _ => false
  end.

(** The rank of a label of the health score, from the worst to the best. *)
Definition label_rank (label : string) : nat :=
  if (label =? "Excellent")%string then 3
  else if (label =? "Good")%string then 2
  else if (label =? "Fair")%string then 1
  else 0.

End PageSpec.

(** * Properties *)

(** ** Lists of records with an [id] *)

Section ById.

Variable A : Type.
Variable key : A -> string.

(** What [prev.filter(x => x.id !== k)] keeps is in the list and has
    another id. *)
Lemma filter_by_id_absent (k : string) (l : list A) :
  ~ In k (map key l) ->
  filter (fun x => negb (key x =? k)%string) l = l.
Proof.
  induction l as [|a l IH]; intros Hk; simpl in *.
  - reflexivity.
  - destruct (String.eqb_spec (key a) k) as [E|E]; simpl.
    + exfalso. apply Hk. now left.
    + f_equal. apply IH. intros H. apply Hk. now right.
Qed.

(** With distinct ids, filtering by an id of the list cuts out one entry. *)
Lemma filter_by_id_cuts_one (k : string) (l : list A) :
  NoDup (map key l) ->
  In k (map key l) ->
  exists before x after,
    l = before ++ x :: after /\
    key x = k /\
    filter (fun x => negb (key x =? k)%string) l = before ++ after /\
    ~ In k (map key (before ++ after)).
Proof.
  induction l as [|a l IH]; intros Hnd Hin; simpl in *.
  - contradiction.
  - inversion Hnd as [|? ? Hnotin Hnd']; subst.
    destruct (String.eqb_spec (key a) k) as [E|E]; simpl.
    + exists [], a, l. simpl. rewrite <- E.
      repeat split; auto.
      apply filter_by_id_absent; assumption.
    + destruct Hin as [Hin|Hin]; [contradiction|].
      destruct (IH Hnd' Hin) as (before & x & after & Hl & Hx & Hf & Hno).
      exists (a :: before), x, after. simpl.
      repeat split.
      * now rewrite Hl.
      * assumption.
      * now rewrite Hf.
      * intros [H|H]; [now apply E | now apply Hno].
Qed.

Lemma filter_keeps_NoDup (p : A -> bool) (l : list A) :
  NoDup (map key l) -> NoDup (map key (filter p l)).
Proof.
  induction l as [|a l IH]; intros Hnd; simpl in *.
  - constructor.
  - inversion Hnd as [|? ? Hnotin Hnd']; subst.
    destruct (p a); simpl; auto.
    constructor; auto.
    intros H. apply Hnotin.
    apply in_map_iff in H as (y & Hy & Hyin).
    apply filter_In in Hyin as [Hyin _].
    rewrite <- Hy. now apply in_map.
Qed.

(** [prev.map(x => x.id === d.id ? d : x)] leaves the ids as they are. *)
Lemma replace_by_id_ids (d : A) (l : list A) :
  map key (map (fun x => if (key x =? key d)%string then d else x) l)
  = map key l.
Proof.
  induction l as [|a l IH]; simpl; [reflexivity|].
  rewrite IH. f_equal.
  destruct (String.eqb_spec (key a) (key d)); congruence.
Qed.

Lemma replace_by_id_In (d : A) (l : list A) :
  In (key d) (map key l) ->
  In d (map (fun x => if (key x =? key d)%string then d else x) l).
Proof.
  intros H. apply in_map_iff in H as (y & Hy & Hyin).
  apply in_map_iff. exists y. split; [|assumption].
  rewrite Hy, String.eqb_refl. reflexivity.
Qed.

(** Ids that agree with [f] on every entry: a [map] that keeps ids. *)
Lemma map_keeps_ids (f : A -> A) (l : list A) :
  (forall x, key (f x) = key x) -> map key (map f l) = map key l.
Proof.
  intros H. rewrite map_map. apply map_ext. exact H.
Qed.

Lemma append_keeps_NoDup (d : A) (l : list A) :
  NoDup (map key l) -> ~ In (key d) (map key l) ->
  NoDup (map key (l ++ [d])).
Proof.
  intros Hnd Hfresh. rewrite map_app. simpl.
  apply NoDup_app; [assumption | repeat constructor; intros [] | ].
  intros a Ha [E|[]]. subst a. contradiction.
Qed.

End ById.

Arguments filter_by_id_cuts_one {A} key k l.
Arguments filter_keeps_NoDup {A} key p l.
Arguments replace_by_id_ids {A} key d l.
Arguments replace_by_id_In {A} key d l.
Arguments map_keeps_ids {A} key f l.
Arguments append_keeps_NoDup {A} key d l.

Import BudgetPage.

Ltac distinct_ids :=
  repeat (constructor; [simpl; intuition discriminate|]); constructor.

(** ** Numbers: sums of whole amounts are exact *)

Lemma iter_xO_value (p k : positive) :
  Zpos (Pos.iter xO p k) = Zpos p * 2 ^ Zpos k.
Proof.
  induction k as [|k IH] using Pos.peano_ind.
  - simpl. lia.
  - rewrite Pos.iter_succ, Pos2Z.inj_succ, Z.pow_succ_r by lia.
    rewrite (Pos2Z.inj_xO (Pos.iter xO p k)), IH. lia.
Qed.

Lemma digits2_pos_bounds (p : positive) :
  2 ^ (Zpos (digits2_pos p) - 1) <= Zpos p < 2 ^ Zpos (digits2_pos p).
Proof.
  induction p as [p IH|p IH|]; simpl digits2_pos.
  - rewrite Pos2Z.inj_succ, Pos2Z.inj_xI.
    replace (Z.succ (Zpos (digits2_pos p)) - 1) with (Z.succ (Zpos (digits2_pos p) - 1)) by lia.
    rewrite !Z.pow_succ_r by lia.
    destruct IH as [IH1 IH2]. revert IH1 IH2.
    generalize (2 ^ (Zpos (digits2_pos p) - 1)) (2 ^ Zpos (digits2_pos p)). lia.
  - rewrite Pos2Z.inj_succ, (Pos2Z.inj_xO p).
    replace (Z.succ (Zpos (digits2_pos p)) - 1) with (Z.succ (Zpos (digits2_pos p) - 1)) by lia.
    rewrite !Z.pow_succ_r by lia.
    destruct IH as [IH1 IH2]. revert IH1 IH2.
    generalize (2 ^ (Zpos (digits2_pos p) - 1)) (2 ^ Zpos (digits2_pos p)). lia.
  - simpl. lia.
Qed.

Lemma digits2_pos_unique (p : positive) (d : Z) :
  2 ^ (d - 1) <= Zpos p < 2 ^ d -> Zpos (digits2_pos p) = d.
Proof.
  intros [Hlo Hhi].
  pose proof (digits2_pos_bounds p) as [Hlo' Hhi'].
  assert (0 < d).
  { destruct (Z_lt_le_dec 0 d); [assumption|].
    exfalso. destruct (Z.eq_dec d 0) as [->|]; [simpl in Hhi; lia|].
    rewrite Z.pow_neg_r in Hhi by lia. lia. }
  destruct (Z_lt_le_dec (Zpos (digits2_pos p)) d) as [Hlt|Hge].
  - exfalso.
    assert (2 ^ Zpos (digits2_pos p) <= 2 ^ (d - 1)) by (apply Z.pow_le_mono_r; lia).
    lia.
  - destruct (Z_lt_le_dec d (Zpos (digits2_pos p))) as [Hlt|Hge']; [|lia].
    exfalso.
    assert (2 ^ d <= 2 ^ (Zpos (digits2_pos p) - 1)) by (apply Z.pow_le_mono_r; lia).
    lia.
Qed.

Ltac std_Z :=
  change IntDef.Z.sub with Z.sub in *;
  change IntDef.Z.add with Z.add in *;
  change IntDef.Z.max with Z.max in *;
  change IntDef.Z.min with Z.min in *;
  change IntDef.Z.leb with Z.leb in *;
  change IntDef.Z.eqb with Z.eqb in *.

Lemma shr_1_even (q : positive) :
  shr_1 (Build_shr_record (Zpos (xO q)) false false) = Build_shr_record (Zpos q) false false.
Proof. reflexivity. Qed.

Lemma iter_shr_1_exact (n : positive) :
  forall q, iter_pos shr_1 n (Build_shr_record (Zpos (Pos.iter xO q n)) false false)
            = Build_shr_record (Zpos q) false false.
Proof.
  induction n as [n IH|n IH|]; intros q; simpl.
  - rewrite IH, IH. reflexivity.
  - rewrite IH, IH. reflexivity.
  - reflexivity.
Qed.

Lemma shr_fexp_canonical (q : positive) (e : Z) :
  Zpos (digits2_pos q) = 53 -> -1074 <= e ->
  shr_fexp JS.prec JS.emax (Zpos q) e loc_Exact = (Build_shr_record (Zpos q) false false, e).
Proof.
  intros Hd He. unfold shr_fexp. std_Z. simpl Zdigits2. rewrite Hd.
  assert (F : fexp JS.prec JS.emax (53 + e) - e = 0).
  { unfold fexp, emin, JS.prec, JS.emax. lia. }
  rewrite F. reflexivity.
Qed.

Lemma shr_fexp_shifted (q n : positive) (e : Z) :
  Zpos (digits2_pos q) = 53 -> -1074 <= e + Zpos n ->
  shr_fexp JS.prec JS.emax (Zpos (Pos.iter xO q n)) e loc_Exact
  = (Build_shr_record (Zpos q) false false, e + Zpos n).
Proof.
  intros Hd He.
  assert (Hdm : Zpos (digits2_pos (Pos.iter xO q n)) = 53 + Zpos n).
  { apply digits2_pos_unique. rewrite iter_xO_value.
    pose proof (digits2_pos_bounds q) as B. rewrite Hd in B.
    replace (53 + Zpos n - 1) with (52 + Zpos n) by lia.
    rewrite !Z.pow_add_r by lia.
    change (53 - 1) with 52 in B. revert B.
    generalize (2 ^ 52) (2 ^ 53) (2 ^ Zpos n) (Zpos q)
               (Z.pow_pos_nonneg 2 (Zpos n) ltac:(lia) ltac:(lia)).
    intros; nia. }
  unfold shr_fexp. std_Z. simpl Zdigits2. rewrite Hdm.
  assert (F : fexp JS.prec JS.emax (53 + Zpos n + e) - e = Zpos n).
  { unfold fexp, emin, JS.prec, JS.emax. lia. }
  rewrite F. unfold shr. cbn [shr_record_of_loc]. rewrite iter_shr_1_exact.
  reflexivity.
Qed.

(** A mantissa of 53 digits with an exponent in range is kept as it is. *)
Lemma binary_round_aux_canonical (q : positive) (e : Z) :
  Zpos (digits2_pos q) = 53 -> -1074 <= e <= 971 ->
  binary_round_aux JS.prec JS.emax false (Zpos q) e loc_Exact = S754_finite false q e.
Proof.
  intros Hd He. unfold binary_round_aux.
  rewrite shr_fexp_canonical by lia.
  cbn [shr_m loc_of_shr_record round_nearest_even].
  rewrite shr_fexp_canonical by lia.
  cbn [shr_m]. std_Z.
  unfold JS.emax, JS.prec. destruct (Z.leb_spec e (1024 - 53)); [reflexivity | lia].
Qed.

(** The number with the 53-digit mantissa [q] and the exponent [e + n],
    given by the mantissa [q * 2^n] and the exponent [e]. *)
Lemma binary_round_aux_shifted (q n : positive) (e : Z) :
  Zpos (digits2_pos q) = 53 -> -1074 <= e + Zpos n <= 971 ->
  binary_round_aux JS.prec JS.emax false (Zpos (Pos.iter xO q n)) e loc_Exact
  = S754_finite false q (e + Zpos n).
Proof.
  intros Hd He. unfold binary_round_aux.
  rewrite shr_fexp_shifted by lia.
  cbn [shr_m loc_of_shr_record round_nearest_even].
  rewrite shr_fexp_canonical by lia.
  cbn [shr_m]. std_Z.
  unfold JS.emax, JS.prec. destruct (Z.leb_spec (e + Zpos n) (1024 - 53)); [reflexivity | lia].
Qed.


Lemma digits2_pos_small (p : positive) :
  Zpos p < 2 ^ 53 -> 1 <= Zpos (digits2_pos p) <= 53.
Proof.
  intros Hp. split; [lia|].
  destruct (Z_le_gt_dec (Zpos (digits2_pos p)) 53) as [|Hgt]; [assumption|].
  exfalso. pose proof (digits2_pos_bounds p) as [Hlo _].
  assert (2 ^ 53 <= 2 ^ (Zpos (digits2_pos p) - 1)) by (apply Z.pow_le_mono_r; lia).
  lia.
Qed.

Lemma digits2_pos_scaled (p m : positive) (k : Z) :
  0 <= k -> Zpos m = Zpos p * 2 ^ k ->
  Zpos (digits2_pos m) = Zpos (digits2_pos p) + k.
Proof.
  intros Hk Hm. apply digits2_pos_unique. rewrite Hm.
  pose proof (digits2_pos_bounds p) as [Hlo Hhi].
  replace (Zpos (digits2_pos p) + k - 1) with (Zpos (digits2_pos p) - 1 + k) by lia.
  rewrite !Z.pow_add_r by lia.
  assert (0 < 2 ^ k) by (apply Z.pow_pos_nonneg; lia).
  split; [apply Z.mul_le_mono_nonneg_r; lia | apply Z.mul_lt_mono_pos_r; lia].
Qed.

Lemma scaled_mantissa (p : positive) :
  Zpos p < 2 ^ 53 ->
  let q := Z.to_pos (Zpos p * 2 ^ (53 - Zpos (digits2_pos p))) in
  Zpos q = Zpos p * 2 ^ (53 - Zpos (digits2_pos p)) /\ Zpos (digits2_pos q) = 53.
Proof.
  intros Hp q. pose proof (digits2_pos_small p Hp) as Hd.
  assert (0 < 2 ^ (53 - Zpos (digits2_pos p))) by (apply Z.pow_pos_nonneg; lia).
  assert (Hq : Zpos q = Zpos p * 2 ^ (53 - Zpos (digits2_pos p))).
  { subst q. rewrite Z2Pos.id; [reflexivity | lia]. }
  split; [exact Hq|].
  rewrite (digits2_pos_scaled p q (53 - Zpos (digits2_pos p))); [lia | lia | exact Hq].
Qed.

(** Rounding a mantissa and exponent that denote an integer below [2^53]
    gives that integer. *)
Lemma binary_round_exact (p m : positive) (e : Z) :
  e <= 0 -> Zpos m = Zpos p * 2 ^ (- e) -> Zpos p < 2 ^ 53 ->
  binary_round JS.prec JS.emax false m e = Spec.canonical p.
Proof.
  intros He Hm Hp.
  pose proof (digits2_pos_small p Hp) as Hd.
  pose proof (scaled_mantissa p Hp) as [Hq Hdq]. cbv zeta in Hq, Hdq.
  unfold Spec.canonical.
  set (q := Z.to_pos (Zpos p * 2 ^ (53 - Zpos (digits2_pos p)))) in *.
  set (d := Zpos (digits2_pos p)) in *.
  assert (Hdm : Zpos (digits2_pos m) = d - e).
  { rewrite (digits2_pos_scaled p m (- e)); [subst d; lia | lia | exact Hm]. }
  unfold binary_round. std_Z. rewrite Hdm.
  replace (d - e + e) with d by lia.
  assert (F : fexp JS.prec JS.emax d = d - 53).
  { unfold fexp, emin, JS.prec, JS.emax. std_Z. lia. }
  rewrite F. unfold shl_align. std_Z.
  destruct (d - 53 - e) as [|n|k] eqn:Hshift.
  - assert (m = q).
    { apply Pos2Z.inj. rewrite Hm, Hq. f_equal. f_equal. lia. }
    subst m. replace e with (d - 53) by lia.
    apply binary_round_aux_canonical; [assumption | lia].
  - assert (m = Pos.iter xO q n).
    { apply Pos2Z.inj. rewrite iter_xO_value, Hm, Hq.
      rewrite <- Z.mul_assoc, <- Z.pow_add_r by lia.
      f_equal. f_equal. lia. }
    subst m. replace (d - 53) with (e + Zpos n) by lia.
    apply binary_round_aux_shifted; [assumption | lia].
  - assert (Pos.iter xO m k = q).
    { apply Pos2Z.inj. rewrite iter_xO_value, Hm, Hq.
      rewrite <- Z.mul_assoc, <- Z.pow_add_r by lia.
      f_equal. f_equal. lia. }
    rewrite H.
    apply binary_round_aux_canonical; [assumption | lia].
Qed.

Lemma of_Z_canonical (p : positive) :
  Zpos p < 2 ^ 53 -> JS.of_Z (Zpos p) = Spec.canonical p.
Proof.
  intros Hp. unfold JS.of_Z, binary_normalize.
  apply binary_round_exact; [lia | simpl; lia | assumption].
Qed.

Lemma shl_align_value (mx : positive) (ex ez : Z) :
  ez <= ex ->
  Zpos (fst (shl_align mx ex ez)) = Zpos mx * 2 ^ (ex - ez).
Proof.
  intros H. unfold shl_align. std_Z.
  destruct (ez - ex) as [|n|k] eqn:E; try lia; simpl fst.
  - replace (ex - ez) with 0 by lia. simpl. lia.
  - rewrite iter_xO_value. f_equal. f_equal. lia.
Qed.

Lemma add_canonical (a b : positive) :
  Zpos a + Zpos b < 2 ^ 53 ->
  JS.add (Spec.canonical a) (Spec.canonical b) = Spec.canonical (a + b).
Proof.
  intros Hsum.
  assert (Ha : Zpos a < 2 ^ 53) by lia.
  assert (Hb : Zpos b < 2 ^ 53) by lia.
  pose proof (digits2_pos_small a Ha) as Hda.
  pose proof (digits2_pos_small b Hb) as Hdb.
  pose proof (scaled_mantissa a Ha) as [Hqa _].
  pose proof (scaled_mantissa b Hb) as [Hqb _].
  cbv zeta in Hqa, Hqb.
  unfold JS.add, Spec.canonical at 1 2, SFadd. std_Z.
  set (ma := Z.to_pos (Zpos a * 2 ^ (53 - Zpos (digits2_pos a)))) in *.
  set (mb := Z.to_pos (Zpos b * 2 ^ (53 - Zpos (digits2_pos b)))) in *.
  set (ea := Zpos (digits2_pos a) - 53) in *.
  set (eb := Zpos (digits2_pos b) - 53) in *.
  set (ez := Z.min ea eb).
  cbn [cond_Zopp].
  assert (HA : Zpos (fst (shl_align ma ea ez)) = Zpos a * 2 ^ (- ez)).
  { rewrite shl_align_value by (subst ez; lia).
    rewrite Hqa, <- Z.mul_assoc, <- Z.pow_add_r by (subst ea ez; lia).
    f_equal. f_equal. subst ea. lia. }
  assert (HB : Zpos (fst (shl_align mb eb ez)) = Zpos b * 2 ^ (- ez)).
  { rewrite shl_align_value by (subst ez; lia).
    rewrite Hqb, <- Z.mul_assoc, <- Z.pow_add_r by (subst eb ez; lia).
    f_equal. f_equal. subst eb. lia. }
  change (Zpos (fst (shl_align ma ea ez)) + Zpos (fst (shl_align mb eb ez)))
    with (Zpos (fst (shl_align ma ea ez) + fst (shl_align mb eb ez))).
  unfold binary_normalize.
  apply binary_round_exact.
  - subst ez ea. lia.
  - rewrite Pos2Z.inj_add, HA, HB. rewrite (Pos2Z.inj_add a b). ring.
  - rewrite Pos2Z.inj_add. assumption.
Qed.

(** On integers from 0 up to [2^53], [+] is the integer sum. *)
Lemma add_of_Z (a b : Z) :
  0 <= a -> 0 <= b -> a + b < 2 ^ 53 ->
  JS.add (JS.of_Z a) (JS.of_Z b) = JS.of_Z (a + b).
Proof.
  intros Ha Hb Hsum.
  destruct a as [|a|a]; [|destruct b as [|b|b]|]; try lia.
  - destruct b as [|b|b]; try lia; [reflexivity|].
    rewrite Z.add_0_l. unfold JS.of_Z at 1. simpl binary_normalize.
    rewrite of_Z_canonical by lia. reflexivity.
  - rewrite Z.add_0_r. unfold JS.of_Z at 2. simpl binary_normalize.
    rewrite of_Z_canonical by lia. reflexivity.
  - rewrite !of_Z_canonical by lia.
    change (Zpos a + Zpos b) with (Zpos (a + b)).
    rewrite of_Z_canonical by (rewrite Pos2Z.inj_add; lia).
    apply add_canonical. assumption.
Qed.

(** The binary64 number of a whole number from 0 to below [2^53] is that
    whole number, exactly. *)
Lemma whole_of_Z (z : Z) :
  0 <= z < 2 ^ 53 -> Spec.whole (JS.of_Z z) = Some z.
Proof.
  intros [Hlo Hhi]. destruct z as [|p|p]; try lia; [reflexivity|].
  rewrite of_Z_canonical by assumption.
  pose proof (digits2_pos_small p Hhi) as Hd.
  pose proof (scaled_mantissa p Hhi) as [Hq _]. cbv zeta in Hq.
  unfold Spec.canonical, Spec.whole.
  set (q := Z.to_pos (Zpos p * 2 ^ (53 - Zpos (digits2_pos p)))) in *.
  destruct (Zpos (digits2_pos p) - 53) as [|e|k] eqn:E; try lia.
  - rewrite Hq. replace (53 - Zpos (digits2_pos p)) with 0 by lia.
    f_equal. simpl. lia.
  - rewrite Hq. replace (53 - Zpos (digits2_pos p)) with (Zpos k) by lia.
    assert (2 ^ Zpos k <> 0) by (apply Z.pow_nonzero; lia).
    rewrite Z.mod_mul, Z.eqb_refl, Z.div_mul by assumption. reflexivity.
Qed.

(** ** Saving an edit *)

(** C2: saving an edited item whose id occurs in the list replaces the entry
    with that id by the new item: the list keeps its length and its ids, the
    new item is at the position of every entry with its id, and every other
    entry stays at its position. *)
Theorem save_edit_replaces_in_place :
  (forall s data,
      editingBudget s <> None ->
      In (Budget.id data) (map Budget.id (budgets s)) ->
      let saved := budgets (handleSaveBudget data s) in
      List.length saved = List.length (budgets s) /\
      map Budget.id saved = map Budget.id (budgets s) /\
      In data saved /\
      (forall i b, nth_error (budgets s) i = Some b ->
                   Budget.id b = Budget.id data -> nth_error saved i = Some data) /\
      (forall i b, nth_error (budgets s) i = Some b ->
                   Budget.id b <> Budget.id data -> nth_error saved i = Some b))
  /\
  (forall s data,
      editingGoal s <> None ->
      In (Goal.id data) (map Goal.id (goals s)) ->
      let saved := goals (handleSaveGoal data s) in
      List.length saved = List.length (goals s) /\
      map Goal.id saved = map Goal.id (goals s) /\
      In data saved /\
      (forall i g, nth_error (goals s) i = Some g ->
                   Goal.id g = Goal.id data -> nth_error saved i = Some data) /\
      (forall i g, nth_error (goals s) i = Some g ->
                   Goal.id g <> Goal.id data -> nth_error saved i = Some g)).
Proof.
  split; intros s data Hedit Hin saved; subst saved.
  - unfold handleSaveBudget.
    destruct (editingBudget s) as [e|]; [|congruence]. cbn.
    split; [apply length_map|].
    split; [apply (replace_by_id_ids Budget.id)|].
    split; [apply (replace_by_id_In Budget.id); assumption|].
    split; intros i b Hi Hb; rewrite nth_error_map, Hi; simpl.
    + rewrite Hb, String.eqb_refl. reflexivity.
    + apply String.eqb_neq in Hb. rewrite Hb. reflexivity.
  - unfold handleSaveGoal.
    destruct (editingGoal s) as [e|]; [|congruence]. cbn.
    split; [apply length_map|].
    split; [apply (replace_by_id_ids Goal.id)|].
    split; [apply (replace_by_id_In Goal.id); assumption|].
    split; intros i g Hi Hg; rewrite nth_error_map, Hi; simpl.
    + rewrite Hg, String.eqb_refl. reflexivity.
    + apply String.eqb_neq in Hg. rewrite Hg. reflexivity.
Qed.

(** The laptop goal is edited on the initial page: a new title and target. *)
Lemma save_edit_replaces_in_place_witness :
  let laptop :=
    Goal.mk "2" "New Laptop" "üíª" (JS.of_Z 45000) (JS.of_Z 80000) "Jun 2026" in
  let data :=
    Goal.mk "2" "Workstation" "💻" (JS.of_Z 45000) (JS.of_Z 120000) "Sep 2026" in
  let s := handleEditGoal laptop initial in
  let saved := goals (handleSaveGoal data s) in
  List.length saved = List.length (goals s) /\
  map Goal.id saved = map Goal.id (goals s) /\
  In data saved /\
  (forall i g, nth_error (goals s) i = Some g ->
               Goal.id g = Goal.id data -> nth_error saved i = Some data) /\
  (forall i g, nth_error (goals s) i = Some g ->
               Goal.id g <> Goal.id data -> nth_error saved i = Some g).
Proof.
  intros laptop data s.
  apply (proj2 save_edit_replaces_in_place s data).
  - simpl. discriminate.
  - simpl. tauto.
Defined.

(** ** Adding savings *)

(** C3, as the code has it: adding savings to a goal of the list gives a
    list in which the goal with that id has [saved] equal to its previous
    [saved] [+] the amount, the binary64 sum of the two numbers with no
    capping and nothing else applied to it, and is otherwise as it was.  When
    the previous [saved] and the amount are whole numbers from 0 up with a
    sum below [2^53], the new [saved] is their sum exactly: no rounding takes
    place. *)
Theorem add_savings_adds_amount (s : state) (goalId : string)
    (amount : JS.number) (i : nat) (g : Goal.t) :
  nth_error (goals s) i = Some g ->
  Goal.id g = goalId ->
  exists g',
    nth_error (goals (handleAddSavings goalId amount s)) i = Some g' /\
    Goal.saved g' = JS.add (Goal.saved g) amount /\
    (forall a b,
        0 <= a -> 0 <= b -> a + b < 2 ^ 53 ->
        Goal.saved g = JS.of_Z a -> amount = JS.of_Z b ->
        Goal.saved g' = JS.of_Z (a + b) /\
        Spec.whole (Goal.saved g') = Some (a + b)) /\
    Goal.id g' = Goal.id g /\ Goal.title g' = Goal.title g /\
    Goal.emoji g' = Goal.emoji g /\ Goal.target g' = Goal.target g /\
    Goal.deadline g' = Goal.deadline g.
Proof.
  intros Hi Hid.
  exists (Goal.with_saved g (JS.add (Goal.saved g) amount)).
  split; [|split; [reflexivity|split; [|repeat split]]].
  - unfold handleAddSavings. cbn.
    rewrite nth_error_map, Hi. simpl.
    rewrite Hid, String.eqb_refl. reflexivity.
  - intros a b Ha Hb Hsum Hsaved Hamount. simpl.
    rewrite Hsaved, Hamount, add_of_Z by assumption.
    split; [reflexivity | apply whole_of_Z; lia].
Qed.

(** 5000 is added to the vacation goal of the initial page: 25000 becomes
    30000. *)
Lemma add_savings_adds_amount_witness :
  exists g',
    nth_error (goals (handleAddSavings "3" (JS.of_Z 5000) initial)) 2 = Some g' /\
    Goal.saved g' = JS.of_Z 30000 /\
    Spec.whole (Goal.saved g') = Some 30000.
Proof.
  destruct (add_savings_adds_amount initial "3" (JS.of_Z 5000) 2
              (Goal.mk "3" "Vacation Trip" "‚úàÔ∏è" (JS.of_Z 25000) (JS.of_Z 100000) "Oct 2026")
              eq_refl eq_refl) as (g' & Hnth & _ & Hexact & _).
  exists g'. split; [exact Hnth|].
  apply (Hexact 25000 5000); [lia | lia | reflexivity | reflexivity | reflexivity].
Defined.

(** C3, as it is stated, fails: the sum is rounded.  The emergency fund of
    the initial page is edited to have saved 9007199254740992 and its
    add-savings dialog is opened.  The dialog accepts the amount "1" and
    hands the goal's id and the number 1 to [handleAddSavings]; in the list
    that this produces the goal still has saved 9007199254740992, and not
    9007199254740993. *)
Lemma deposit_of_one_is_lost :
  exists s s' g g',
    run initial Sample.open_savings_of_large_fund = Some s /\
    nth_error (goals s) 0 = Some g /\
    AddSavingsDialog.submit (goalForSavings s) "1" = Some (Goal.id g, JS.of_Z 1) /\
    step s (SubmitAddSavings "1") = Some s' /\
    goals s' = goals (handleAddSavings (Goal.id g) (JS.of_Z 1) s) /\
    nth_error (goals s') 0 = Some g' /\
    Goal.id g' = Goal.id g /\
    Spec.whole (Goal.saved g) = Some 9007199254740992 /\
    Spec.whole (JS.of_Z 1) = Some 1 /\
    Spec.whole (Goal.saved g') = Some 9007199254740992 /\
    Spec.whole (Goal.saved g') <> Some (9007199254740992 + 1).
Proof.
  do 4 eexists.
  split; [vm_compute; reflexivity|].
  split; [vm_compute; reflexivity|].
  split; [vm_compute; reflexivity|].
  split; [vm_compute; reflexivity|].
  split; [vm_compute; reflexivity|].
  split; [vm_compute; reflexivity|].
  split; [reflexivity|].
  split; [reflexivity|].
  split; [reflexivity|].
  split; [reflexivity|].
  vm_compute. discriminate.
Qed.

(** ** Submitting the forms *)

Lemma number_checkValidity_min (required : bool) (m : JS.number) (value : string) :
  HTML.number_checkValidity required (Some m) value = true ->
  value <> "" ->
  JS.le m (JS.parseFloat value) = true.
Proof.
  unfold HTML.number_checkValidity. intros H Hne.
  apply String.eqb_neq in Hne. rewrite Hne in H.
  apply andb_true_iff in H. tauto.
Qed.

Lemma number_checkValidity_required (m : option JS.number) (value : string) :
  HTML.number_checkValidity true m value = true -> value <> "".
Proof.
  unfold HTML.number_checkValidity. intros H E. subst value.
  simpl in H. discriminate.
Qed.

Lemma or_zero_not_negative (x : JS.number) :
  JS.le JS.zero x = true -> JS.le JS.zero (JS.or_number x JS.zero) = true.
Proof.
  unfold JS.or_number. destruct (JS.truthy_number x); [auto | reflexivity].
Qed.

(** C4, as the code has it: for every input that passes the dialog's
    validation, the budget passed to [onSave] by the budget form has
    [limit >= 0] and the goal passed to [onSave] by the goal form has
    [target >= 0].  The inputs have [min="0"], so 0 is accepted. *)
Theorem saved_limit_and_target_not_negative :
  (forall budget uuid f data,
      BudgetFormDialog.submit budget uuid f = Some data ->
      JS.ge (Budget.limit data) JS.zero = true)
  /\
  (forall goal uuid f data,
      GoalFormDialog.submit goal uuid f = Some data ->
      JS.ge (Goal.target data) JS.zero = true).
Proof.
  split.
  - intros budget uuid f data. unfold BudgetFormDialog.submit.
    destruct (BudgetFormDialog.disabled f); [discriminate|].
    destruct (BudgetFormDialog.checkValidity f) eqn:Hvalid; [|discriminate].
    intros H. injection H as <-. simpl.
    unfold BudgetFormDialog.checkValidity in Hvalid.
    apply andb_true_iff in Hvalid as [_ Hlimit].
    apply or_zero_not_negative.
    apply number_checkValidity_min with (required := true); [assumption|].
    now apply number_checkValidity_required in Hlimit.
  - intros goal uuid f data. unfold GoalFormDialog.submit.
    destruct (GoalFormDialog.disabled f); [discriminate|].
    destruct (GoalFormDialog.checkValidity goal f) eqn:Hvalid; [|discriminate].
    intros H. injection H as <-. simpl.
    unfold GoalFormDialog.checkValidity in Hvalid.
    apply andb_true_iff in Hvalid as [Hvalid _].
    apply andb_true_iff in Hvalid as [Hvalid _].
    apply andb_true_iff in Hvalid as [_ Htarget].
    apply or_zero_not_negative.
    apply number_checkValidity_min with (required := true); [assumption|].
    now apply number_checkValidity_required in Htarget.
Qed.

(** A new budget "Rent" with the limit 20000 is submitted. *)
Lemma saved_limit_and_target_not_negative_witness :
  exists data,
    BudgetFormDialog.submit None Sample.uuid Sample.rent = Some data /\
    JS.ge (Budget.limit data) JS.zero = true.
Proof.
  exists (BudgetFormDialog.handleSubmit None Sample.uuid Sample.rent).
  assert (H : BudgetFormDialog.submit None Sample.uuid Sample.rent
              = Some (BudgetFormDialog.handleSubmit None Sample.uuid Sample.rent))
    by (vm_compute; reflexivity).
  split; [exact H|].
  exact (proj1 saved_limit_and_target_not_negative None Sample.uuid Sample.rent _ H).
Defined.

(** C4, as it is stated, fails: a budget form with the limit "0" and a goal
    form with the target "0" pass validation, and the limit and the target
    handed to [onSave] are 0, which is not greater than 0. *)
Lemma zero_limit_and_target_are_saved :
  (exists data,
      BudgetFormDialog.submit None Sample.uuid Sample.zero_limit = Some data /\
      Budget.limit data = JS.zero /\
      JS.gt (Budget.limit data) JS.zero = false)
  /\
  (exists data,
      GoalFormDialog.submit None Sample.uuid Sample.zero_target = Some data /\
      Goal.target data = JS.zero /\
      JS.gt (Goal.target data) JS.zero = false).
Proof.
  split; eexists; (split; [vm_compute; reflexivity|]); split; reflexivity.
Qed.

(** C5: when a required field of the form is empty (the category or the
    limit of the budget form; the title, the target or the deadline of the
    goal form), submitting is blocked: [onSave] is not called, and the page
    state, with its lists, is what it was. *)
Theorem empty_required_field_blocks_submit :
  (forall budget uuid f,
      BudgetFormDialog.category f = "" \/ BudgetFormDialog.limit f = "" ->
      BudgetFormDialog.submit budget uuid f = None)
  /\
  (forall goal uuid f,
      GoalFormDialog.title f = "" \/ GoalFormDialog.target f = "" \/
      GoalFormDialog.deadline f = "" ->
      GoalFormDialog.submit goal uuid f = None)
  /\
  (forall s f uuid s',
      BudgetFormDialog.category f = "" \/ BudgetFormDialog.limit f = "" ->
      step s (SubmitBudgetForm f uuid) = Some s' ->
      s' = s)
  /\
  (forall s f uuid s',
      GoalFormDialog.title f = "" \/ GoalFormDialog.target f = "" \/
      GoalFormDialog.deadline f = "" ->
      step s (SubmitGoalForm f uuid) = Some s' ->
      s' = s).
Proof.
  assert (Hb : forall budget uuid f,
             BudgetFormDialog.category f = "" \/ BudgetFormDialog.limit f = "" ->
             BudgetFormDialog.submit budget uuid f = None).
  { intros budget uuid f H. unfold BudgetFormDialog.submit.
    replace (BudgetFormDialog.disabled f) with true; [reflexivity|].
    unfold BudgetFormDialog.disabled.
    destruct H as [H|H]; rewrite H; simpl; rewrite ?orb_true_r; reflexivity. }
  assert (Hg : forall goal uuid f,
             GoalFormDialog.title f = "" \/ GoalFormDialog.target f = "" \/
             GoalFormDialog.deadline f = "" ->
             GoalFormDialog.submit goal uuid f = None).
  { intros goal uuid f H. unfold GoalFormDialog.submit.
    replace (GoalFormDialog.disabled f) with true; [reflexivity|].
    unfold GoalFormDialog.disabled.
    destruct H as [H|[H|H]]; rewrite H; simpl; rewrite ?orb_true_r; reflexivity. }
  repeat split; auto.
  - intros s f uuid s' H. simpl.
    rewrite (Hb _ _ _ H).
    destruct (budgetFormOpen s && Crypto.is_uuid uuid); congruence.
  - intros s f uuid s' H. simpl.
    rewrite (Hg _ _ _ H).
    destruct (goalFormOpen s && Crypto.is_uuid uuid); congruence.
Qed.

(** The add-budget dialog is open and the form has no category; the add-goal
    dialog is open and the form has no deadline. *)
Lemma empty_required_field_blocks_submit_witness :
  BudgetFormDialog.submit None Sample.uuid Sample.no_category = None /\
  GoalFormDialog.submit None Sample.uuid Sample.no_deadline = None /\
  step (handleAddBudget initial) (SubmitBudgetForm Sample.no_category Sample.uuid)
  = Some (handleAddBudget initial) /\
  step (handleAddGoal initial) (SubmitGoalForm Sample.no_deadline Sample.uuid)
  = Some (handleAddGoal initial).
Proof.
  destruct empty_required_field_blocks_submit as (Hb & Hg & Hbs & Hgs).
  split; [apply Hb; left; reflexivity|].
  split; [apply Hg; right; right; reflexivity|].
  split.
  - destruct (step (handleAddBudget initial)
                (SubmitBudgetForm Sample.no_category Sample.uuid)) as [s'|] eqn:E.
    + f_equal. apply (Hbs _ Sample.no_category Sample.uuid); [left; reflexivity | exact E].
    + vm_compute in E. discriminate.
  - destruct (step (handleAddGoal initial)
                (SubmitGoalForm Sample.no_deadline Sample.uuid)) as [s'|] eqn:E.
    + f_equal. apply (Hgs _ Sample.no_deadline Sample.uuid); [right; right; reflexivity | exact E].
    + vm_compute in E. discriminate.
Defined.

(** ** Distinct ids *)

Lemma save_budget_keeps_ids_distinct (s : state) (data : Budget.t) :
  (editingBudget s = None -> ~ In (Budget.id data) (map Budget.id (budgets s))) ->
  NoDup (map Budget.id (budgets s)) ->
  NoDup (map Budget.id (budgets (handleSaveBudget data s))).
Proof.
  intros Hfresh Hnd. unfold handleSaveBudget.
  destruct (editingBudget s); cbn.
  - now rewrite (replace_by_id_ids Budget.id).
  - apply (append_keeps_NoDup Budget.id); auto.
Qed.

Lemma save_goal_keeps_ids_distinct (s : state) (data : Goal.t) :
  (editingGoal s = None -> ~ In (Goal.id data) (map Goal.id (goals s))) ->
  NoDup (map Goal.id (goals s)) ->
  NoDup (map Goal.id (goals (handleSaveGoal data s))).
Proof.
  intros Hfresh Hnd. unfold handleSaveGoal.
  destruct (editingGoal s); cbn.
  - now rewrite (replace_by_id_ids Goal.id).
  - apply (append_keeps_NoDup Goal.id); auto.
Qed.

Lemma add_savings_keeps_ids (s : state) (goalId : string) (amount : JS.number) :
  map Goal.id (goals (handleAddSavings goalId amount s)) = map Goal.id (goals s).
Proof.
  unfold handleAddSavings. cbn. apply (map_keeps_ids Goal.id).
  intros g. destruct (Goal.id g =? goalId)%string; reflexivity.
Qed.

(** The handlers that touch one list leave the other alone. *)
Lemma save_budget_goals (s : state) (data : Budget.t) :
  goals (handleSaveBudget data s) = goals s.
Proof. unfold handleSaveBudget. destruct (editingBudget s); reflexivity. Qed.

Lemma save_goal_budgets (s : state) (data : Goal.t) :
  budgets (handleSaveGoal data s) = budgets s.
Proof. unfold handleSaveGoal. destruct (editingGoal s); reflexivity. Qed.

Lemma confirm_delete_budget_goals (s : state) :
  goals (handleConfirmDeleteBudget s) = goals s.
Proof. unfold handleConfirmDeleteBudget. destruct (budgetToDelete s); reflexivity. Qed.

Lemma confirm_delete_goal_budgets (s : state) :
  budgets (handleConfirmDeleteGoal s) = budgets s.
Proof. unfold handleConfirmDeleteGoal. destruct (goalToDelete s); reflexivity. Qed.

(** The id of a submitted budget or goal when nothing is being edited. *)
Lemma created_budget_id (uuid : string) (f : BudgetFormDialog.form) (data : Budget.t) :
  BudgetFormDialog.submit None uuid f = Some data -> Budget.id data = uuid.
Proof.
  unfold BudgetFormDialog.submit.
  destruct (BudgetFormDialog.disabled f); [discriminate|].
  destruct (BudgetFormDialog.checkValidity f); [|discriminate].
  intros H. injection H as <-. reflexivity.
Qed.

Lemma created_goal_id (uuid : string) (f : GoalFormDialog.form) (data : Goal.t) :
  GoalFormDialog.submit None uuid f = Some data -> Goal.id data = uuid.
Proof.
  unfold GoalFormDialog.submit.
  destruct (GoalFormDialog.disabled f); [discriminate|].
  destruct (GoalFormDialog.checkValidity None f); [|discriminate].
  intros H. injection H as <-. reflexivity.
Qed.

Ltac step_cases H :=
  repeat match type of H with
         | context [match ?x with _ => _ end] => destruct x eqn:?
         end;
  try discriminate H; injection H as <-.

(** C7: distinct ids are kept by every action of the page.  When the ids of
    the budgets and of the goals are pairwise distinct, they are so after a
    create (given that the generated id does not occur in the list), an
    edit-save, a delete and an add-savings, and after every other action. *)
Theorem step_keeps_ids_distinct (s : state) (e : event) (s' : state) :
  step s e = Some s' ->
  Spec.fresh_id s e ->
  NoDup (map Budget.id (budgets s)) ->
  NoDup (map Goal.id (goals s)) ->
  NoDup (map Budget.id (budgets s')) /\ NoDup (map Goal.id (goals s')).
Proof.
  intros Hstep Hfresh Hb Hg.
  destruct e; simpl in Hstep, Hfresh.
  - step_cases Hstep; cbn; auto.
  - step_cases Hstep; cbn; auto.
  - step_cases Hstep; cbn; auto.
  - step_cases Hstep; cbn; auto.
  - destruct (budgetFormOpen s && Crypto.is_uuid uuid); [|discriminate].
    destruct (BudgetFormDialog.submit (editingBudget s) uuid f) as [data|] eqn:Hsub;
      injection Hstep as <-; [|auto].
    cbn. rewrite save_budget_goals. split; [|assumption].
    apply save_budget_keeps_ids_distinct; [|assumption].
    intros Hnone. rewrite Hnone in Hsub.
    rewrite (created_budget_id _ _ _ Hsub). auto.
  - step_cases Hstep; cbn; auto.
  - destruct (deleteBudgetOpen s); [|discriminate]. injection Hstep as <-.
    cbn. rewrite confirm_delete_budget_goals. split; [|assumption].
    unfold handleConfirmDeleteBudget.
    destruct (budgetToDelete s); cbn; [|assumption].
    now apply (filter_keeps_NoDup Budget.id).
  - step_cases Hstep; cbn; auto.
  - step_cases Hstep; cbn; auto.
  - step_cases Hstep; cbn; auto.
  - step_cases Hstep; cbn; auto.
  - destruct (goalFormOpen s && Crypto.is_uuid uuid); [|discriminate].
    destruct (GoalFormDialog.submit (editingGoal s) uuid f) as [data|] eqn:Hsub;
      injection Hstep as <-; [|auto].
    cbn. rewrite save_goal_budgets. split; [assumption|].
    apply save_goal_keeps_ids_distinct; [|assumption].
    intros Hnone. rewrite Hnone in Hsub.
    rewrite (created_goal_id _ _ _ Hsub). auto.
  - step_cases Hstep; cbn; auto.
  - destruct (deleteGoalOpen s); [|discriminate]. injection Hstep as <-.
    cbn. rewrite confirm_delete_goal_budgets. split; [assumption|].
    unfold handleConfirmDeleteGoal.
    destruct (goalToDelete s); cbn; [|assumption].
    now apply (filter_keeps_NoDup Goal.id).
  - step_cases Hstep; cbn; auto.
  - destruct (addSavingsOpen s); [|discriminate].
    destruct (AddSavingsDialog.submit (goalForSavings s) amount) as [[goalId n]|];
      injection Hstep as <-; [|auto].
    split; [assumption|].
    change (goals (setAddSavingsOpen false (handleAddSavings goalId n s)))
      with (goals (handleAddSavings goalId n s)).
    now rewrite add_savings_keeps_ids.
  - step_cases Hstep; cbn; auto.
Qed.

(** A budget "Rent" is created on the initial page with a generated id. *)
Lemma step_keeps_ids_distinct_witness :
  exists s',
    step (handleAddBudget initial) (SubmitBudgetForm Sample.rent Sample.uuid) = Some s' /\
    List.length (budgets s') = 6%nat /\
    NoDup (map Budget.id (budgets s')) /\ NoDup (map Goal.id (goals s')).
Proof.
  destruct (step (handleAddBudget initial) (SubmitBudgetForm Sample.rent Sample.uuid))
    as [s'|] eqn:E; [|vm_compute in E; discriminate].
  exists s'. split; [reflexivity|].
  split; [vm_compute in E; injection E as <-; reflexivity|].
  apply (step_keeps_ids_distinct (handleAddBudget initial)
           (SubmitBudgetForm Sample.rent Sample.uuid) s' E).
  - simpl. intros _. intuition discriminate.
  - simpl. distinct_ids.
  - simpl. distinct_ids.
Defined.

(** ** Totals *)

Lemma sum_upto_ext (a a' : nat -> JS.number) (n : nat) :
  (forall i, (i < n)%nat -> a i = a' i) ->
  Spec.sum_upto a n = Spec.sum_upto a' n.
Proof.
  induction n as [|n IH]; intros H; simpl.
  - reflexivity.
  - rewrite IH by (intros i Hi; apply H; lia).
    rewrite (H n) by lia. reflexivity.
Qed.

(** [reduce((sum, x) => sum + x.field, 0)] is the sum of the field over the
    list. *)
Lemma reduce_is_sum {A} (field : A -> JS.number) (l : list A) :
  fold_left (fun sum x => JS.add sum (field x)) l JS.zero = Spec.sum_over field l.
Proof.
  induction l as [|x l IH] using rev_ind.
  - reflexivity.
  - rewrite fold_left_app. simpl. rewrite IH.
    unfold Spec.sum_over. rewrite length_app, Nat.add_1_r. simpl.
    rewrite map_app. simpl.
    rewrite <- (length_map field l) at 3.
    rewrite nth_middle.
    f_equal. apply sum_upto_ext.
    intros i Hi. rewrite app_nth1 by (now rewrite length_map). reflexivity.
Qed.

Lemma sum_Z_not_negative (zs : list Z) : Forall (Z.le 0) zs -> 0 <= Spec.sum_Z zs.
Proof.
  induction 1 as [|z zs Hz _ IH]; simpl; lia.
Qed.

(** [reduce] from a whole number over whole amounts: the integer sum. *)
Lemma reduce_whole_amounts {A} (field : A -> JS.number) (l : list A) :
  forall zs acc,
    0 <= acc ->
    map field l = map JS.of_Z zs ->
    Forall (Z.le 0) zs ->
    acc + Spec.sum_Z zs < 2 ^ 53 ->
    fold_left (fun sum x => JS.add sum (field x)) l (JS.of_Z acc)
    = JS.of_Z (acc + Spec.sum_Z zs).
Proof.
  induction l as [|x l IH]; intros [|z zs] acc Hacc Hmap Hall Hsum;
    simpl in Hmap; try discriminate.
  - simpl. now rewrite Z.add_0_r.
  - injection Hmap as Hx Hmap. inversion Hall as [|? ? Hz Hall']; subst.
    pose proof (sum_Z_not_negative zs Hall') as Hzs.
    simpl in Hsum |- *. rewrite Hx, add_of_Z by lia.
    rewrite Z.add_assoc. apply IH; try assumption; lia.
Qed.

Lemma reduce_is_exact {A} (field : A -> JS.number) (l : list A) :
  Spec.exact_total field l
    (fold_left (fun sum x => JS.add sum (field x)) l JS.zero).
Proof.
  intros zs Hmap Hall Hsum.
  pose proof (sum_Z_not_negative zs Hall) as Hzs.
  pose proof (reduce_whole_amounts field l zs 0 (Z.le_refl 0) Hmap Hall Hsum)
    as Htotal.
  change (JS.of_Z 0) with JS.zero in Htotal. rewrite Htotal.
  split; [reflexivity | apply whole_of_Z; simpl; lia].
Qed.

(** C8, as the code has it: the totals that the page renders are the
    binary64 sums over its current lists, added term after term in the order
    of the list from 0: [totalBudget] of [limit] and [totalSpent] of [spent]
    over the budgets, [totalSaved] of [saved] and [totalTarget] of [target]
    over the goals.  When the amounts of a list are whole numbers from 0 up
    with an arithmetic sum below [2^53], the total is that arithmetic sum
    exactly. *)
Theorem totals_are_sums (s : state) :
  (totalBudget s = Spec.sum_over Budget.limit (budgets s) /\
   totalSpent s = Spec.sum_over Budget.spent (budgets s) /\
   totalSaved s = Spec.sum_over Goal.saved (goals s) /\
   totalTarget s = Spec.sum_over Goal.target (goals s))
  /\
  (Spec.exact_total Budget.limit (budgets s) (totalBudget s) /\
   Spec.exact_total Budget.spent (budgets s) (totalSpent s) /\
   Spec.exact_total Goal.saved (goals s) (totalSaved s) /\
   Spec.exact_total Goal.target (goals s) (totalTarget s)).
Proof.
  split.
  - split; [|split; [|split]]; apply reduce_is_sum.
  - split; [|split; [|split]]; apply reduce_is_exact.
Qed.

(** The totals of the initial page: 42000 of limits and 480000 of targets. *)
Lemma totals_are_sums_witness :
  (totalBudget initial = JS.of_Z (15000 + 6000 + 12000 + 4000 + 5000) /\
   Spec.whole (totalBudget initial) = Some 42000) /\
  (totalTarget initial = JS.of_Z (300000 + 80000 + 100000) /\
   Spec.whole (totalTarget initial) = Some 480000).
Proof.
  destruct (totals_are_sums initial) as (_ & Hbudget & _ & _ & Htarget).
  split.
  - apply (Hbudget [15000; 6000; 12000; 4000; 5000]).
    + reflexivity.
    + repeat constructor; discriminate.
    + reflexivity.
  - apply (Htarget [300000; 80000; 100000]).
    + reflexivity.
    + repeat constructor; discriminate.
    + reflexivity.
Defined.

(** C8, as it is stated, fails: the additions round.  Three budgets with
    the limits 9007199254740992, 1 and 1 are added to the initial page.  The
    limits of the list are then the whole numbers 15000, 6000, 12000, 4000,
    5000, 9007199254740992, 1 and 1, with the arithmetic sum
    9007199254782994, and [totalBudget] is 9007199254782992. *)
Lemma total_of_limits_is_short :
  exists s,
    run initial Sample.add_large_and_small_budgets = Some s /\
    map (fun b => Spec.whole (Budget.limit b)) (budgets s)
    = map Some [15000; 6000; 12000; 4000; 5000; 9007199254740992; 1; 1] /\
    Spec.sum_Z [15000; 6000; 12000; 4000; 5000; 9007199254740992; 1; 1]
    = 9007199254782994 /\
    Spec.whole (totalBudget s) = Some 9007199254782992 /\
    Spec.whole (totalBudget s)
    <> Some (Spec.sum_Z [15000; 6000; 12000; 4000; 5000; 9007199254740992; 1; 1]).
Proof.
  eexists.
  split; [vm_compute; reflexivity|].
  split; [vm_compute; reflexivity|].
  split; [reflexivity|].
  split; [vm_compute; reflexivity|].
  vm_compute. discriminate.
Qed.

(** ** What holds of every state of the page *)

Lemma or_zero_idempotent (x : JS.number) :
  JS.or_number (JS.or_number x JS.zero) JS.zero = JS.or_number x JS.zero.
Proof.
  unfold JS.or_number. destruct (JS.truthy_number x) eqn:E.
  - now rewrite E.
  - reflexivity.
Qed.

Lemma uuid_not_empty (uuid : string) : Crypto.is_uuid uuid = true -> uuid <> "".
Proof. intros H E. subst uuid. discriminate H. Qed.

Lemma or_string_not_empty (x y : string) : y <> "" -> JS.or_string x y <> "".
Proof.
  unfold JS.or_string, JS.truthy_string. intros Hy.
  destruct (String.eqb_spec x ""); simpl; assumption.
Qed.

(** What the budget form hands to [onSave] is well formed. *)
Lemma submitted_budget_well_formed (budget : option Budget.t) (uuid : string)
    (f : BudgetFormDialog.form) :
  Crypto.is_uuid uuid = true ->
  Spec.well_formed (BudgetFormDialog.handleSubmit budget uuid f).
Proof.
  intros Huuid. split; simpl.
  - apply or_string_not_empty, uuid_not_empty, Huuid.
  - destruct budget; [apply or_zero_idempotent | reflexivity].
Qed.

Lemma submit_budget_is_handleSubmit (budget : option Budget.t) (uuid : string)
    (f : BudgetFormDialog.form) (data : Budget.t) :
  BudgetFormDialog.submit budget uuid f = Some data ->
  data = BudgetFormDialog.handleSubmit budget uuid f.
Proof.
  unfold BudgetFormDialog.submit.
  destruct (BudgetFormDialog.disabled f); [discriminate|].
  destruct (BudgetFormDialog.checkValidity f); [|discriminate].
  congruence.
Qed.

Lemma save_budget_well_formed (s : state) (data : Budget.t) :
  Spec.well_formed data ->
  Forall Spec.well_formed (budgets s) ->
  Forall Spec.well_formed (budgets (handleSaveBudget data s)).
Proof.
  intros Hd Hall. unfold handleSaveBudget.
  destruct (editingBudget s); cbn.
  - apply Forall_map. eapply Forall_impl; [|exact Hall].
    intros b Hb. simpl. destruct (Budget.id b =? Budget.id data)%string; assumption.
  - apply Forall_app. split; [assumption | now constructor].
Qed.

Lemma save_budget_keeps_listed (s : state) (data : Budget.t) (k : string) :
  In k (map Budget.id (budgets s)) ->
  In k (map Budget.id (budgets (handleSaveBudget data s))).
Proof.
  intros H. unfold handleSaveBudget.
  destruct (editingBudget s); cbn.
  - now rewrite (replace_by_id_ids Budget.id).
  - rewrite map_app. apply in_or_app. now left.
Qed.

Lemma save_goal_keeps_listed (s : state) (data : Goal.t) (k : string) :
  In k (map Goal.id (goals s)) ->
  In k (map Goal.id (goals (handleSaveGoal data s))).
Proof.
  intros H. unfold handleSaveGoal.
  destruct (editingGoal s); cbn.
  - now rewrite (replace_by_id_ids Goal.id).
  - rewrite map_app. apply in_or_app. now left.
Qed.

Ltac split_invariant := unfold Spec.invariant; split; [|split; [|split]].

Lemma invariant_initial : Spec.invariant initial.
Proof.
  unfold Spec.invariant; simpl.
  repeat split; try discriminate.
  repeat constructor; simpl; discriminate.
Qed.

Lemma invariant_step (s : state) (e : event) (s' : state) :
  Spec.invariant s -> step s e = Some s' -> Spec.invariant s'.
Proof.
  intros (Hwf & Hedit & Hbdel & Hgdel) Hstep.
  destruct e; simpl in Hstep.
  - step_cases Hstep. split_invariant; cbn; auto.
  - step_cases Hstep; split_invariant; cbn; auto; discriminate.
  - step_cases Hstep. split_invariant; cbn; auto.
    intros b' Hb'. injection Hb' as <-.
    eapply Forall_forall; [exact Hwf | eapply nth_error_In; eassumption].
  - step_cases Hstep. split_invariant; cbn; auto.
    intros b' Hb'. injection Hb' as <-.
    apply in_map. eapply nth_error_In; eassumption.
  - destruct (budgetFormOpen s && Crypto.is_uuid uuid) eqn:Hopen; [|discriminate].
    apply andb_true_iff in Hopen as [_ Huuid].
    destruct (BudgetFormDialog.submit (editingBudget s) uuid f) as [data|] eqn:Hsub;
      injection Hstep as <-; [|split_invariant; cbn; auto].
    apply submit_budget_is_handleSubmit in Hsub.
    assert (Hdata : Spec.well_formed data)
      by (subst data; now apply submitted_budget_well_formed).
    split_invariant.
    + now apply save_budget_well_formed.
    + cbn. unfold handleSaveBudget. destruct (editingBudget s) eqn:E; cbn; rewrite ?E.
      * intros b' Hb'. apply Hedit. exact Hb'.
      * discriminate.
    + cbn. unfold handleSaveBudget. destruct (editingBudget s) eqn:E; cbn.
      * intros b' Hb'. fold (budgets s). cbn.
        rewrite (replace_by_id_ids Budget.id). auto.
      * intros b' Hb'. rewrite map_app. apply in_or_app. left. auto.
    + cbn. rewrite save_budget_goals.
      unfold handleSaveBudget. destruct (editingBudget s); cbn; exact Hgdel.
  - step_cases Hstep. split_invariant; cbn; auto.
  - destruct (deleteBudgetOpen s); [|discriminate]. injection Hstep as <-.
    unfold handleConfirmDeleteBudget.
    destruct (budgetToDelete s) as [toDelete|] eqn:E; split_invariant; cbn; rewrite ?E; auto.
    + apply Forall_forall. intros b Hb. apply filter_In in Hb as [Hb _].
      eapply Forall_forall; eassumption.
    + discriminate.
  - step_cases Hstep. split_invariant; cbn; auto.
  - step_cases Hstep. split_invariant; cbn; auto.
  - step_cases Hstep. split_invariant; cbn; auto.
    intros g' Hg'. injection Hg' as <-.
    apply in_map. eapply nth_error_In; eassumption.
  - step_cases Hstep. split_invariant; cbn; auto.
  - destruct (goalFormOpen s && Crypto.is_uuid uuid); [|discriminate].
    destruct (GoalFormDialog.submit (editingGoal s) uuid f) as [data|];
      injection Hstep as <-; [|split_invariant; cbn; auto].
    split_invariant; cbn.
    + now rewrite save_goal_budgets.
    + unfold handleSaveGoal. destruct (editingGoal s); exact Hedit.
    + rewrite save_goal_budgets.
      unfold handleSaveGoal. destruct (editingGoal s); exact Hbdel.
    + intros g' Hg'. apply save_goal_keeps_listed. apply Hgdel.
      unfold handleSaveGoal in Hg'. destruct (editingGoal s); exact Hg'.
  - step_cases Hstep. split_invariant; cbn; auto.
  - destruct (deleteGoalOpen s); [|discriminate]. injection Hstep as <-.
    unfold handleConfirmDeleteGoal.
    destruct (goalToDelete s) as [toDelete|] eqn:E; split_invariant; cbn; rewrite ?E; auto.
    discriminate.
  - step_cases Hstep. split_invariant; cbn; auto.
  - destruct (addSavingsOpen s); [|discriminate].
    destruct (AddSavingsDialog.submit (goalForSavings s) amount) as [[goalId n]|];
      injection Hstep as <-; [|split_invariant; cbn; auto].
    split_invariant; cbn; auto.
    intros g' Hg'.
    change (In (Goal.id g') (map Goal.id (goals (handleAddSavings goalId n s)))).
    rewrite add_savings_keeps_ids. auto.
  - step_cases Hstep. split_invariant; cbn; auto.
Qed.

Lemma invariant_run (es : list event) :
  forall s s', Spec.invariant s -> run s es = Some s' -> Spec.invariant s'.
Proof.
  induction es as [|e es IH]; intros s s' Hinv Hrun; simpl in Hrun.
  - now injection Hrun as <-.
  - destruct (step s e) as [s1|] eqn:Hstep; [|discriminate].
    apply (IH s1); [|assumption].
    eapply invariant_step; eassumption.
Qed.

Lemma reachable_invariant (s : state) : reachable s -> Spec.invariant s.
Proof.
  intros [es Hrun]. eapply invariant_run; [apply invariant_initial | exact Hrun].
Qed.

(** ** Deleting *)

(** In every state of the page the item to delete is an entry of its list. *)
Lemma item_to_delete_is_listed (s : state) :
  reachable s ->
  (forall b, budgetToDelete s = Some b -> In (Budget.id b) (map Budget.id (budgets s))) /\
  (forall g, goalToDelete s = Some g -> In (Goal.id g) (map Goal.id (goals s))).
Proof.
  intros H. apply reachable_invariant in H as (_ & _ & Hb & Hg). split; assumption.
Qed.

(** Whatever the ids, a confirmed deletion keeps the entries with another
    id than the item's, and only them. *)
Lemma confirm_delete_filters_by_id (s : state) (item b : Budget.t) :
  budgetToDelete s = Some item ->
  In b (budgets (handleConfirmDeleteBudget s)) <->
  In b (budgets s) /\ Budget.id b <> Budget.id item.
Proof.
  intros Hitem. unfold handleConfirmDeleteBudget. rewrite Hitem. cbn.
  rewrite filter_In, negb_true_iff, String.eqb_neq. reflexivity.
Qed.

(** With two entries of the same id, both are removed. *)
Example confirm_delete_with_duplicate_ids :
  let twice := setBudgets (fun prev => prev ++ [Sample.food]) initial in
  List.length (budgets twice) = 6%nat /\
  List.length
    (budgets (handleConfirmDeleteBudget (handleDeleteBudgetClick Sample.food twice)))
  = 4%nat.
Proof. split; reflexivity. Qed.

(** C1: confirming a deletion removes exactly one entry, the entry whose id
    is the id of the item to delete, and leaves the other entries as they are
    and in their order, when the ids of the list are distinct.  The list
    splits around the removed entry, and no entry with that id is left.  The
    item's id is an id of the list, as it is in every state that the page
    reaches.  The same holds for the budgets and for the goals. *)
Theorem confirm_delete_removes_exactly_one :
  (forall s item,
      budgetToDelete s = Some item ->
      NoDup (map Budget.id (budgets s)) ->
      In (Budget.id item) (map Budget.id (budgets s)) \/ reachable s ->
      exists before x after,
        budgets s = before ++ x :: after /\
        Budget.id x = Budget.id item /\
        budgets (handleConfirmDeleteBudget s) = before ++ after /\
        ~ In (Budget.id item) (map Budget.id (before ++ after)))
  /\
  (forall s item,
      goalToDelete s = Some item ->
      NoDup (map Goal.id (goals s)) ->
      In (Goal.id item) (map Goal.id (goals s)) \/ reachable s ->
      exists before x after,
        goals s = before ++ x :: after /\
        Goal.id x = Goal.id item /\
        goals (handleConfirmDeleteGoal s) = before ++ after /\
        ~ In (Goal.id item) (map Goal.id (before ++ after))).
Proof.
  split; intros s item Hitem Hnd Hin.
  - assert (Hlisted : In (Budget.id item) (map Budget.id (budgets s))).
    { destruct Hin as [Hin|Hreach]; [assumption|].
      now apply (proj1 (item_to_delete_is_listed s Hreach)). }
    unfold handleConfirmDeleteBudget. rewrite Hitem. cbn.
    exact (filter_by_id_cuts_one Budget.id (Budget.id item) (budgets s) Hnd Hlisted).
  - assert (Hlisted : In (Goal.id item) (map Goal.id (goals s))).
    { destruct Hin as [Hin|Hreach]; [assumption|].
      now apply (proj2 (item_to_delete_is_listed s Hreach)). }
    unfold handleConfirmDeleteGoal. rewrite Hitem. cbn.
    exact (filter_by_id_cuts_one Goal.id (Goal.id item) (goals s) Hnd Hlisted).
Qed.

(** The delete button of the third budget row is clicked on the initial
    page. *)
Lemma confirm_delete_removes_exactly_one_witness :
  exists s shopping,
    run initial [ClickDeleteBudget 2] = Some s /\
    budgetToDelete s = Some shopping /\
    Budget.category shopping = "Shopping" /\
    exists before x after,
      budgets s = before ++ x :: after /\
      Budget.id x = Budget.id shopping /\
      budgets (handleConfirmDeleteBudget s) = before ++ after /\
      List.length (budgets (handleConfirmDeleteBudget s)) = 4%nat /\
      ~ In (Budget.id shopping) (map Budget.id (before ++ after)).
Proof.
  destruct (run initial [ClickDeleteBudget 2]) as [s|] eqn:E;
    [|vm_compute in E; discriminate].
  exists s.
  destruct (budgetToDelete s) as [shopping|] eqn:Eitem;
    [|vm_compute in E; injection E as <-; discriminate].
  exists shopping.
  split; [reflexivity|]. split; [reflexivity|].
  split; [vm_compute in E; injection E as <-; injection Eitem as <-; reflexivity|].
  destruct (proj1 confirm_delete_removes_exactly_one s shopping Eitem)
    as (before & x & after & H1 & H2 & H3 & H4).
  - vm_compute in E. injection E as <-. simpl. distinct_ids.
  - right. exists [ClickDeleteBudget 2]. exact E.
  - exists before, x, after. repeat split; try assumption.
    rewrite H3.
    assert (L : List.length (budgets s) = 5%nat)
      by (vm_compute in E; injection E as <-; reflexivity).
    rewrite H1, length_app in L. simpl in L. rewrite length_app. lia.
Defined.

(** ** Editing a budget *)

(** C9: the budget form keeps the fields it does not show.  For every budget
    of the page that is edited (an entry of the list, or the budget the form
    was opened for) and every form input, the budget passed to [onSave] has
    the id and the [spent] of the original; the other four fields are taken
    from the form. *)
Theorem edit_budget_keeps_id_and_spent (s : state) (b : Budget.t)
    (uuid : string) (f : BudgetFormDialog.form) :
  reachable s ->
  In b (budgets s) \/ editingBudget s = Some b ->
  let data := BudgetFormDialog.handleSubmit (Some b) uuid f in
  Budget.id data = Budget.id b /\
  Budget.spent data = Budget.spent b /\
  (forall saved, BudgetFormDialog.submit (Some b) uuid f = Some saved ->
                 Budget.id saved = Budget.id b /\ Budget.spent saved = Budget.spent b).
Proof.
  intros Hreach Hb data.
  apply reachable_invariant in Hreach as (Hwf & Hedit & _).
  assert (Hwfb : Spec.well_formed b).
  { destruct Hb as [Hb|Hb]; [|now apply Hedit].
    eapply Forall_forall; eassumption. }
  destruct Hwfb as [Hid Hspent].
  assert (Hdata : Budget.id data = Budget.id b /\ Budget.spent data = Budget.spent b).
  { subst data. simpl. split; [|exact Hspent].
    unfold JS.or_string, JS.truthy_string.
    apply String.eqb_neq in Hid. now rewrite Hid. }
  destruct Hdata as [H1 H2].
  split; [exact H1|]. split; [exact H2|].
  intros saved Hsaved. apply submit_budget_is_handleSubmit in Hsaved.
  subst saved. split; assumption.
Qed.

(** The food budget of the initial page is edited into "Groceries" with the
    limit 9000. *)
Lemma edit_budget_keeps_id_and_spent_witness :
  exists s,
    run initial [ClickEditBudget 0] = Some s /\
    editingBudget s = Some Sample.food /\
    exists saved,
      BudgetFormDialog.submit (Some Sample.food) Sample.uuid Sample.groceries = Some saved /\
      Budget.id saved = "1" /\ Budget.spent saved = JS.of_Z 12500 /\
      Budget.category saved = "Groceries".
Proof.
  exists (handleEditBudget Sample.food initial).
  split; [reflexivity|]. split; [reflexivity|].
  exists (BudgetFormDialog.handleSubmit (Some Sample.food) Sample.uuid Sample.groceries).
  assert (Hsub : BudgetFormDialog.submit (Some Sample.food) Sample.uuid Sample.groceries
                 = Some (BudgetFormDialog.handleSubmit (Some Sample.food) Sample.uuid
                           Sample.groceries))
    by (vm_compute; reflexivity).
  split; [exact Hsub|].
  destruct (edit_budget_keeps_id_and_spent (handleEditBudget Sample.food initial)
              Sample.food Sample.uuid Sample.groceries) as (_ & _ & H).
  - exists [ClickEditBudget 0]. reflexivity.
  - right. reflexivity.
  - destruct (H _ Hsub) as [Hid Hspent].
    split; [exact Hid|]. split; [exact Hspent|]. reflexivity.
Defined.

(** ** The progress bars *)

Lemma SFltb_irrefl (x : JS.number) : SFltb x x = false.
Proof.
  unfold SFltb. destruct x as [[]|[]| |[] m e]; simpl; try reflexivity;
    rewrite Z.compare_refl, Pos.compare_cont_refl; reflexivity.
Qed.

(** [Math.min(a, b)] is never greater than [b]. *)
Lemma Math_min_at_most (a b : JS.number) : JS.gt (JS.Math_min a b) b = false.
Proof.
  unfold JS.gt.
  destruct a, b; simpl; try reflexivity;
    match goal with
    | |- SFltb ?y (if SFltb ?y ?x then _ else _) = false =>
        destruct (SFltb y x) eqn:E; [apply SFltb_irrefl | exact E]
    end.
Qed.

(** C6, on the code: the bar of a goal row and the preview bar of the
    add-savings dialog are never wider than 100 percent, but the overview bar
    of the goals tab is not clamped.  After 1000000 is added to the emergency
    fund of the initial page, that goal has 1150000 saved of a target of
    300000, and the overview bar has the width 254.16666666666666 percent. *)
Theorem goals_overview_bar_is_not_clamped :
  (forall goal, JS.gt (goal_width goal) (JS.of_Z 100) = false) /\
  (forall goal amount,
      JS.gt (AddSavingsDialog.newPercentage goal amount) (JS.of_Z 100) = false) /\
  (exists s fund,
      run initial Sample.save_a_million = Some s /\
      activeTab s = TabGoals /\
      nth_error (goals s) 0 = Some fund /\
      Goal.saved fund = JS.of_Z 1150000 /\
      Goal.target fund = JS.of_Z 300000 /\
      goal_width fund = JS.of_Z 100 /\
      goalsOverviewWidth s = JS.parseFloat "254.16666666666666" /\
      JS.gt (goalsOverviewWidth s) (JS.of_Z 100) = true).
Proof.
  split; [intros goal; apply Math_min_at_most|].
  split; [intros goal amount; apply Math_min_at_most|].
  destruct (run initial Sample.save_a_million) as [s|] eqn:E;
    [|vm_compute in E; discriminate].
  vm_compute in E. injection E as <-.
  eexists. eexists.
  split; [reflexivity|]. split; [reflexivity|].
  split; [reflexivity|].
  repeat split; vm_compute; reflexivity.
Qed.

(** C10, on the code: the divisors of the overview bars can be zero.  After
    every budget of the initial page is deleted, the budget tab shows the
    overview bar with [totalBudget = 0], and its width, the minimum of
    [0 / 0 * 100] and 100, is [NaN].  After every goal is deleted, the goals
    tab shows the overview bar with [totalTarget = 0] and the width [NaN]. *)
Theorem overview_divisors_can_be_zero :
  (exists s,
      run initial Sample.delete_every_budget = Some s /\
      activeTab s = TabBudget /\
      budgets s = [] /\
      totalBudget s = JS.zero /\
      monthlyBudgetWidth s = JS.NaN)
  /\
  (exists s,
      run initial Sample.delete_every_goal = Some s /\
      activeTab s = TabGoals /\
      goals s = [] /\
      totalTarget s = JS.zero /\
      goalsOverviewWidth s = JS.NaN).
Proof.
  split.
  - destruct (run initial Sample.delete_every_budget) as [s|] eqn:E;
      [|vm_compute in E; discriminate].
    vm_compute in E. injection E as <-.
    eexists. repeat split.
  - destruct (run initial Sample.delete_every_goal) as [s|] eqn:E;
      [|vm_compute in E; discriminate].
    vm_compute in E. injection E as <-.
    eexists. repeat split.
Qed.

(** ** The model on the initial page *)

Example initial_totals :
  totalBudget initial = JS.of_Z 42000 /\ totalSpent initial = JS.of_Z 32500 /\
  totalSaved initial = JS.of_Z 220000 /\ totalTarget initial = JS.of_Z 480000.
Proof. repeat split; vm_compute; reflexivity. Qed.

Example initial_widths :
  monthlyBudgetWidth initial = JS.parseFloat "77.38095238095238" /\
  goalsOverviewWidth initial = JS.parseFloat "45.83333333333333".
Proof. split; vm_compute; reflexivity. Qed.

Example parseFloat_values :
  JS.parseFloat "15000" = JS.of_Z 15000 /\
  JS.parseFloat "  12.5abc" = JS.div (JS.of_Z 25) (JS.of_Z 2) /\
  JS.parseFloat "1e3" = JS.of_Z 1000 /\
  JS.parseFloat "-0" = S754_zero true /\
  JS.parseFloat "" = JS.NaN /\
  JS.parseFloat "abc" = JS.NaN /\
  JS.parseFloat "9007199254740993" = JS.of_Z 9007199254740992 /\
  JS.add (JS.parseFloat "0.1") (JS.parseFloat "0.2") = JS.parseFloat "0.30000000000000004".
Proof. repeat split; vm_compute; reflexivity. Qed.

(** * Further properties *)

(** ** The order of numbers *)

(** A number is greater than 0 exactly when it is not [NaN] and not at most
    0. *)
Lemma gt_zero_iff (x : JS.number) :
  JS.gt x JS.zero = true <-> JS.isNaN x || JS.le x JS.zero = false.
Proof.
  unfold JS.gt, JS.le, JS.zero.
  destruct x as [[]|[]| |[] m e]; simpl; split; intros H;
    try reflexivity; try discriminate H.
Qed.

Lemma at_least_one_is_positive (x : JS.number) :
  JS.ge x (JS.of_Z 1) = true -> JS.gt x JS.zero = true.
Proof.
  unfold JS.ge, JS.gt, JS.zero.
  destruct x as [[]|[]| |[] m e]; intros H; try reflexivity;
    vm_compute in H; discriminate H.
Qed.

Lemma SFleb_trans (x y z : JS.number) :
  SFleb x y = true -> SFleb y z = true -> SFleb x z = true.
Proof.
  unfold SFleb, SFcompare.
  destruct x as [[]|[]| |[] mx ex], y as [[]|[]| |[] my ey],
           z as [[]|[]| |[] mz ez];
    try reflexivity; try discriminate;
    try (intros _ H; discriminate H);
    rewrite !Pos.compare_cont_spec;
    destruct (Z.compare_spec ex ey), (Z.compare_spec ey ez),
             (Z.compare_spec ex ez);
    try lia; try reflexivity; try discriminate;
    try (intros _ H; discriminate H);
    simpl;
    destruct (Pos.compare_spec mx my), (Pos.compare_spec my mz),
             (Pos.compare_spec mx mz);
    try lia; try reflexivity; try discriminate;
    try (intros _ H; discriminate H).
Qed.

(** ** Adding a transaction *)

Lemma add_transaction_outcome (f : AddTransaction.form) :
  (AddTransaction.navigate (AddTransaction.handleSubmit f) = Some "/" <->
   AddTransaction.amount f <> "" /\
   AddTransaction.selectedCategory f <> "" /\
   JS.gt (JS.parseFloat (AddTransaction.amount f)) JS.zero = true)
  /\
  (AddTransaction.navigate (AddTransaction.handleSubmit f) = None <->
   exists message,
     AddTransaction.shown (AddTransaction.handleSubmit f)
     = AddTransaction.toast_error message)
  /\
  (AddTransaction.navigate (AddTransaction.handleSubmit f) = Some "/" \/
   AddTransaction.navigate (AddTransaction.handleSubmit f) = None).
Proof.
  unfold AddTransaction.handleSubmit, JS.truthy_string.
  destruct (String.eqb_spec (AddTransaction.amount f) "") as [Ha|Ha];
    destruct (String.eqb_spec (AddTransaction.selectedCategory f) "") as [Hc|Hc];
    simpl.
  1-3: (split; [split; [discriminate | tauto]
               | split; [split; [eexists; reflexivity | reflexivity] | now right]]).
  pose proof (gt_zero_iff (JS.parseFloat (AddTransaction.amount f))) as Hgt.
  destruct (JS.isNaN (JS.parseFloat (AddTransaction.amount f))
            || JS.le (JS.parseFloat (AddTransaction.amount f)) JS.zero); simpl.
  - split; [split; [discriminate|]
           | split; [split; [eexists; reflexivity | reflexivity] | now right]].
    intros (_ & _ & H). apply Hgt in H. discriminate H.
  - split; [split; [intros _; repeat split; try assumption; now apply Hgt | reflexivity]
           | split; [split; [discriminate | intros [m Hm]; discriminate Hm] | now left]].
Qed.

(** X1: the add-transaction form is accepted, with a return to the home page,
    exactly when the amount and the category are filled in and the amount
    parses to a number greater than 0; it stays on the page exactly when it
    shows an error, and it does one or the other. *)
Theorem add_transaction_accepts_positive_amounts (f : AddTransaction.form) :
  (AddTransaction.navigate (AddTransaction.handleSubmit f) = Some "/" <->
   AddTransaction.amount f <> "" /\
   AddTransaction.selectedCategory f <> "" /\
   JS.gt (JS.parseFloat (AddTransaction.amount f)) JS.zero = true)
  /\
  (AddTransaction.navigate (AddTransaction.handleSubmit f) = None <->
   exists message,
     AddTransaction.shown (AddTransaction.handleSubmit f)
     = AddTransaction.toast_error message)
  /\
  (AddTransaction.navigate (AddTransaction.handleSubmit f) = Some "/" \/
   AddTransaction.navigate (AddTransaction.handleSubmit f) = None).
Proof.
  exact (add_transaction_outcome f).
Qed.

(** X2: changing the transaction type clears the category and keeps the rest
    of the form, so the form is refused for its missing field whatever had
    been entered; choosing a category of the new type's grid makes a form
    with an amount greater than 0 acceptable again. *)
Theorem type_change_asks_for_a_category
    (newType : AddTransaction.TransactionType) (f : AddTransaction.form) :
  let f' := AddTransaction.handleTypeChange newType f in
  AddTransaction.handleSubmit f'
  = AddTransaction.mkOutcome
      (AddTransaction.toast_error "Please fill in all required fields") None /\
  AddTransaction.amount f' = AddTransaction.amount f /\
  AddTransaction.note f' = AddTransaction.note f /\
  AddTransaction.date f' = AddTransaction.date f /\
  (forall category,
      In category (AddTransaction.categories newType) ->
      AddTransaction.amount f <> "" ->
      JS.gt (JS.parseFloat (AddTransaction.amount f)) JS.zero = true ->
      AddTransaction.navigate
        (AddTransaction.handleSubmit (AddTransaction.selectCategory category f'))
      = Some "/").
Proof.
  intros f'. split.
  - unfold AddTransaction.handleSubmit. subst f'. simpl.
    now rewrite orb_true_r.
  - repeat split. intros category Hin Hamount Hgt.
    apply (proj1 (add_transaction_outcome
                    (AddTransaction.selectCategory category f'))).
    subst f'. simpl. repeat split; try assumption.
    destruct newType; simpl in Hin;
      repeat (destruct Hin as [<-|Hin]; [discriminate|]); contradiction.
Qed.

(** An expense of 250.50 with the category "Transport" is turned into an
    income and given the category "Salary". *)
Lemma type_change_asks_for_a_category_witness :
  let f := AddTransaction.mkForm AddTransaction.expense "250.50" "Transport"
             "bus pass" "2026-01-15" in
  let f' := AddTransaction.handleTypeChange AddTransaction.income f in
  AddTransaction.navigate (AddTransaction.handleSubmit f) = Some "/" /\
  AddTransaction.navigate (AddTransaction.handleSubmit f') = None /\
  AddTransaction.navigate
    (AddTransaction.handleSubmit
       (AddTransaction.selectCategory (AddTransaction.mkCategory "Salary" "💰") f'))
  = Some "/".
Proof.
  intros f f'.
  destruct (type_change_asks_for_a_category AddTransaction.income f)
    as (Hrefused & _ & _ & _ & Hagain).
  split; [reflexivity|]. split.
  - fold f' in Hrefused. rewrite Hrefused. reflexivity.
  - apply Hagain.
    + simpl. tauto.
    + discriminate.
    + vm_compute. reflexivity.
Defined.

(** ** The financial health score *)

(** X3: the colour and the label of a score agree on the two upper bands and
    only there: "Excellent" is green, "Good" has the warning colour, and both
    "Fair" and "Needs Attention" have the destructive colour.  A score that is
    [NaN] is labelled "Needs Attention". *)
Theorem score_colour_follows_label (score : JS.number) :
  (FinancialHealthScore.getScoreLabel score = "Excellent" <->
   FinancialHealthScore.getScoreColor score = "text-emerald") /\
  (FinancialHealthScore.getScoreLabel score = "Good" <->
   FinancialHealthScore.getScoreColor score = "text-warning") /\
  (FinancialHealthScore.getScoreLabel score = "Fair" \/
   FinancialHealthScore.getScoreLabel score = "Needs Attention" <->
   FinancialHealthScore.getScoreColor score = "text-destructive") /\
  (JS.isNaN score = true ->
   FinancialHealthScore.getScoreLabel score = "Needs Attention").
Proof.
  unfold FinancialHealthScore.getScoreLabel, FinancialHealthScore.getScoreColor.
  repeat split;
    try (destruct score; try discriminate; intros _; reflexivity);
    destruct (JS.ge score (JS.of_Z 80)), (JS.ge score (JS.of_Z 60)),
             (JS.ge score (JS.of_Z 40));
    intros H; try discriminate H; try reflexivity; auto;
    destruct H as [H|H]; discriminate H.
Qed.

(** X4: a higher score never gets a worse label: when [x <= y], the label of
    [y] ranks at least as high as the label of [x], in the order "Needs
    Attention", "Fair", "Good", "Excellent". *)
Theorem score_label_is_monotone (x y : JS.number) :
  JS.le x y = true ->
  (PageSpec.label_rank (FinancialHealthScore.getScoreLabel x)
   <= PageSpec.label_rank (FinancialHealthScore.getScoreLabel y))%nat.
Proof.
  intros Hxy.
  assert (Hup : forall c, JS.ge x c = true -> JS.ge y c = true).
  { intros c Hc. unfold JS.ge in *. eapply SFleb_trans; eassumption. }
  unfold FinancialHealthScore.getScoreLabel.
  destruct (JS.ge x (JS.of_Z 80)) eqn:H80.
  { rewrite (Hup _ H80). apply Nat.le_refl. }
  destruct (JS.ge x (JS.of_Z 60)) eqn:H60.
  { rewrite (Hup _ H60). destruct (JS.ge y (JS.of_Z 80)); vm_compute; lia. }
  destruct (JS.ge x (JS.of_Z 40)) eqn:H40.
  { rewrite (Hup _ H40).
    destruct (JS.ge y (JS.of_Z 80)), (JS.ge y (JS.of_Z 60)); vm_compute; lia. }
  destruct (JS.ge y (JS.of_Z 80)), (JS.ge y (JS.of_Z 60)), (JS.ge y (JS.of_Z 40));
    vm_compute; lia.
Qed.

(** The scores 59.5 and 60: "Fair" and "Good". *)
Lemma score_label_is_monotone_witness :
  FinancialHealthScore.getScoreLabel (JS.parseFloat "59.5") = "Fair" /\
  FinancialHealthScore.getScoreLabel (JS.of_Z 60) = "Good" /\
  (PageSpec.label_rank (FinancialHealthScore.getScoreLabel (JS.parseFloat "59.5"))
   <= PageSpec.label_rank (FinancialHealthScore.getScoreLabel (JS.of_Z 60)))%nat.
Proof.
  split; [reflexivity|]. split; [reflexivity|].
  apply (score_label_is_monotone (JS.parseFloat "59.5") (JS.of_Z 60)).
  vm_compute. reflexivity.
Defined.

(** ** The budget bars and the overview text *)

(** X5: no budget bar is wider than 100 percent: the bar of a category on the
    dashboard card, the bar of a budget row, and the overview bar of the
    budget tab. *)
Theorem budget_bars_are_clamped :
  (forall category,
      JS.gt (BudgetProgress.percentage category) (JS.of_Z 100) = false) /\
  (forall budget, JS.gt (budget_width budget) (JS.of_Z 100) = false) /\
  (forall s, JS.gt (monthlyBudgetWidth s) (JS.of_Z 100) = false).
Proof.
  repeat split; intros; apply Math_min_at_most.
Qed.

Lemma sub_diag (x : JS.number) :
  PageSpec.is_finite x = true -> JS.sub x x = JS.zero.
Proof.
  destruct x as [[]|[]| |sx m e]; try discriminate; try reflexivity.
  intros _. unfold JS.sub, SFsub.
  rewrite Z.sub_diag. reflexivity.
Qed.

(** X6: when what was spent equals the budget exactly, the overview of the
    budget tab reads "Over budget by" 0, although no row counts as over
    budget when its spent equals its limit; with an empty list of budgets the
    overview reads "Over budget by" 0 as well. *)
Theorem on_budget_reads_over_budget :
  (forall s,
      totalSpent s = totalBudget s ->
      PageSpec.is_finite (totalBudget s) = true ->
      BudgetSummary.of_page s = BudgetSummary.over_budget_by JS.zero) /\
  (forall budget,
      Budget.spent budget = Budget.limit budget ->
      budget_isOver budget = false) /\
  (forall s,
      budgets s = [] ->
      BudgetSummary.of_page s = BudgetSummary.over_budget_by JS.zero).
Proof.
  assert (H : forall s, totalSpent s = totalBudget s ->
                        PageSpec.is_finite (totalBudget s) = true ->
                        BudgetSummary.of_page s = BudgetSummary.over_budget_by JS.zero).
  { intros s Heq Hfin. unfold BudgetSummary.of_page.
    rewrite Heq, (sub_diag _ Hfin). reflexivity. }
  split; [exact H|]. split.
  - intros budget Heq. unfold budget_isOver, JS.gt. rewrite Heq.
    apply SFltb_irrefl.
  - intros s Hempty. apply H; unfold totalSpent, totalBudget; rewrite Hempty;
      reflexivity.
Qed.

(** The entertainment budget alone, with 4000 spent of a limit of 4000. *)
Lemma on_budget_reads_over_budget_witness :
  let row := Budget.mk "4" "Entertainment" "üé¨" (JS.of_Z 4000) (JS.of_Z 4000)
               "bg-destructive" in
  let s := setBudgets (fun _ => [row]) initial in
  BudgetSummary.of_page s = BudgetSummary.over_budget_by JS.zero /\
  budget_isOver row = false.
Proof.
  intros row s.
  destruct on_budget_reads_over_budget as (Hpage & Hrow & _).
  split.
  - apply Hpage; reflexivity.
  - apply Hrow. reflexivity.
Defined.

(** ** How the list operations compose *)

Lemma filter_by_id_appended {A} (key : A -> string) (d : A) (l : list A) :
  ~ In (key d) (map key l) ->
  filter (fun x => negb (key x =? key d)%string) (l ++ [d]) = l.
Proof.
  intros Hfresh. rewrite filter_app. simpl. rewrite String.eqb_refl. simpl.
  rewrite app_nil_r. now apply filter_by_id_absent.
Qed.

Lemma replace_by_id_absent {A} (key : A -> string) (d : A) (l : list A) :
  ~ In (key d) (map key l) ->
  map (fun x => if (key x =? key d)%string then d else x) l = l.
Proof.
  induction l as [|a l IH]; intros Hno; simpl in *; [reflexivity|].
  destruct (String.eqb_spec (key a) (key d)) as [E|E].
  - exfalso. apply Hno. now left.
  - f_equal. apply IH. tauto.
Qed.

Lemma map_if_absent {A} (key : A -> string) (k : string) (f : A -> A) (l : list A) :
  ~ In k (map key l) ->
  map (fun x => if (key x =? k)%string then f x else x) l = l.
Proof.
  induction l as [|a l IH]; intros Hno; simpl in *; [reflexivity|].
  destruct (String.eqb_spec (key a) k) as [E|E].
  - exfalso. apply Hno. now left.
  - f_equal. apply IH. tauto.
Qed.

(** X7: creating an item with an id that is new to the list and then
    deleting that item gives the list back as it was, for the budgets and
    for the goals. *)
Theorem create_then_delete_restores_list :
  (forall s data,
      editingBudget s = None ->
      ~ In (Budget.id data) (map Budget.id (budgets s)) ->
      budgets (handleConfirmDeleteBudget
                 (handleDeleteBudgetClick data (handleSaveBudget data s)))
      = budgets s)
  /\
  (forall s data,
      editingGoal s = None ->
      ~ In (Goal.id data) (map Goal.id (goals s)) ->
      goals (handleConfirmDeleteGoal
               (handleDeleteGoalClick data (handleSaveGoal data s)))
      = goals s).
Proof.
  split; intros s data Hcreate Hfresh.
  - unfold handleSaveBudget. rewrite Hcreate. cbn.
    now apply (filter_by_id_appended Budget.id).
  - unfold handleSaveGoal. rewrite Hcreate. cbn.
    now apply (filter_by_id_appended Goal.id).
Qed.

(** A budget "Rent" is created on the initial page and deleted again. *)
Lemma create_then_delete_restores_list_witness :
  let data := BudgetFormDialog.handleSubmit None Sample.uuid Sample.rent in
  List.length (budgets (handleSaveBudget data initial)) = 6%nat /\
  budgets (handleConfirmDeleteBudget
             (handleDeleteBudgetClick data (handleSaveBudget data initial)))
  = INITIAL_BUDGETS.
Proof.
  intros data. split; [reflexivity|].
  apply (proj1 create_then_delete_restores_list initial data).
  - reflexivity.
  - simpl. intuition discriminate.
Defined.

(** X8: an operation by id changes nothing when no entry has the id: saving
    an edit, confirming a deletion and adding savings leave the list as it
    is, and no entry is added. *)
Theorem unknown_id_changes_nothing :
  (forall s data,
      editingBudget s <> None ->
      ~ In (Budget.id data) (map Budget.id (budgets s)) ->
      budgets (handleSaveBudget data s) = budgets s) /\
  (forall s data,
      editingGoal s <> None ->
      ~ In (Goal.id data) (map Goal.id (goals s)) ->
      goals (handleSaveGoal data s) = goals s) /\
  (forall s item,
      budgetToDelete s = Some item ->
      ~ In (Budget.id item) (map Budget.id (budgets s)) ->
      budgets (handleConfirmDeleteBudget s) = budgets s) /\
  (forall s item,
      goalToDelete s = Some item ->
      ~ In (Goal.id item) (map Goal.id (goals s)) ->
      goals (handleConfirmDeleteGoal s) = goals s) /\
  (forall s goalId amount,
      ~ In goalId (map Goal.id (goals s)) ->
      goals (handleAddSavings goalId amount s) = goals s).
Proof.
  repeat split.
  - intros s data Hedit Hno. unfold handleSaveBudget.
    destruct (editingBudget s); [|congruence]. cbn.
    now apply (replace_by_id_absent Budget.id).
  - intros s data Hedit Hno. unfold handleSaveGoal.
    destruct (editingGoal s); [|congruence]. cbn.
    now apply (replace_by_id_absent Goal.id).
  - intros s item Hitem Hno. unfold handleConfirmDeleteBudget. rewrite Hitem. cbn.
    now apply filter_by_id_absent.
  - intros s item Hitem Hno. unfold handleConfirmDeleteGoal. rewrite Hitem. cbn.
    now apply filter_by_id_absent.
  - intros s goalId amount Hno. unfold handleAddSavings. cbn.
    now apply (map_if_absent Goal.id).
Qed.

(** Savings for a goal "9" on the initial page, which has the goals "1", "2"
    and "3". *)
Lemma unknown_id_changes_nothing_witness :
  goals (handleAddSavings "9" (JS.of_Z 5000) initial) = INITIAL_GOALS.
Proof.
  destruct unknown_id_changes_nothing as (_ & _ & _ & _ & H).
  apply (H initial "9" (JS.of_Z 5000)).
  simpl. intuition discriminate.
Defined.

(** X9: confirming a deletion twice deletes once: after the first
    confirmation there is no item to delete, and the second changes
    nothing. *)
Theorem confirm_delete_twice_is_once (s : state) :
  handleConfirmDeleteBudget (handleConfirmDeleteBudget s)
  = handleConfirmDeleteBudget s /\
  handleConfirmDeleteGoal (handleConfirmDeleteGoal s)
  = handleConfirmDeleteGoal s.
Proof.
  split.
  - assert (H : budgetToDelete (handleConfirmDeleteBudget s) = None).
    { unfold handleConfirmDeleteBudget.
      destruct (budgetToDelete s) eqn:E; [reflexivity | exact E]. }
    unfold handleConfirmDeleteBudget at 1. now rewrite H.
  - assert (H : goalToDelete (handleConfirmDeleteGoal s) = None).
    { unfold handleConfirmDeleteGoal.
      destruct (goalToDelete s) eqn:E; [reflexivity | exact E]. }
    unfold handleConfirmDeleteGoal at 1. now rewrite H.
Qed.

(** X10: the two lists are independent: only submitting the budget form and
    confirming a budget deletion can change the budgets, and only submitting
    the goal form, confirming a goal deletion and adding savings can change
    the goals. *)
Theorem lists_are_independent (s : state) (e : event) (s' : state) :
  step s e = Some s' ->
  (PageSpec.writes_budgets e = false -> budgets s' = budgets s) /\
  (PageSpec.writes_goals e = false -> goals s' = goals s).
Proof.
  intros Hstep.
  destruct e; simpl in Hstep |- *.
  - step_cases Hstep; split; reflexivity.
  - step_cases Hstep; split; reflexivity.
  - step_cases Hstep; split; reflexivity.
  - step_cases Hstep; split; reflexivity.
  - destruct (budgetFormOpen s && Crypto.is_uuid uuid); [|discriminate].
    destruct (BudgetFormDialog.submit (editingBudget s) uuid f);
      injection Hstep as <-; split; try discriminate; intros _; [|reflexivity].
    cbn. apply save_budget_goals.
  - step_cases Hstep; split; reflexivity.
  - destruct (deleteBudgetOpen s); [|discriminate]. injection Hstep as <-.
    split; [discriminate|]. intros _. cbn. apply confirm_delete_budget_goals.
  - step_cases Hstep; split; reflexivity.
  - step_cases Hstep; split; reflexivity.
  - step_cases Hstep; split; reflexivity.
  - step_cases Hstep; split; reflexivity.
  - destruct (goalFormOpen s && Crypto.is_uuid uuid); [|discriminate].
    destruct (GoalFormDialog.submit (editingGoal s) uuid f);
      injection Hstep as <-; split; try discriminate; intros _; [|reflexivity].
    cbn. apply save_goal_budgets.
  - step_cases Hstep; split; reflexivity.
  - destruct (deleteGoalOpen s); [|discriminate]. injection Hstep as <-.
    split; [|discriminate]. intros _. cbn. apply confirm_delete_goal_budgets.
  - step_cases Hstep; split; reflexivity.
  - destruct (addSavingsOpen s); [|discriminate].
    destruct (AddSavingsDialog.submit (goalForSavings s) amount) as [[goalId n]|];
      injection Hstep as <-; split; try discriminate; reflexivity.
  - step_cases Hstep; split; reflexivity.
Qed.

(** The first goal is deleted on the goals tab of the initial page: the
    budgets stay as they are. *)
Lemma lists_are_independent_witness :
  exists s s',
    run initial [SelectTab TabGoals; ClickDeleteGoal 0] = Some s /\
    step s ConfirmDeleteGoal = Some s' /\
    List.length (goals s') = 2%nat /\
    budgets s' = budgets s.
Proof.
  eexists. eexists.
  split; [reflexivity|]. split; [reflexivity|]. split; [reflexivity|].
  match goal with
  | |- budgets ?b = budgets ?a =>
      apply (proj1 (lists_are_independent a ConfirmDeleteGoal b eq_refl))
  end.
  reflexivity.
Defined.

(** ** Creating an item *)

Lemma submit_goal_is_handleSubmit (goal : option Goal.t) (uuid : string)
    (f : GoalFormDialog.form) (data : Goal.t) :
  GoalFormDialog.submit goal uuid f = Some data ->
  data = GoalFormDialog.handleSubmit goal uuid f.
Proof.
  unfold GoalFormDialog.submit.
  destruct (GoalFormDialog.disabled f); [discriminate|].
  destruct (GoalFormDialog.checkValidity goal f); [|discriminate].
  congruence.
Qed.

(** X11: a new item is added at the end of its list and nothing else of the
    list changes.  A new budget has the generated id and nothing spent, the
    total budget grows by its limit, and the dialog is closed; a new goal has
    the generated id and the total target grows by its target. *)
Theorem create_appends_one_entry :
  (forall s f uuid data s',
      editingBudget s = None ->
      BudgetFormDialog.submit None uuid f = Some data ->
      step s (SubmitBudgetForm f uuid) = Some s' ->
      budgets s' = budgets s ++ [data] /\
      Budget.id data = uuid /\
      Budget.spent data = JS.zero /\
      totalBudget s' = JS.add (totalBudget s) (Budget.limit data) /\
      budgetFormOpen s' = false)
  /\
  (forall s f uuid data s',
      editingGoal s = None ->
      GoalFormDialog.submit None uuid f = Some data ->
      step s (SubmitGoalForm f uuid) = Some s' ->
      goals s' = goals s ++ [data] /\
      Goal.id data = uuid /\
      totalTarget s' = JS.add (totalTarget s) (Goal.target data) /\
      goalFormOpen s' = false).
Proof.
  split; intros s f uuid data s' Hcreate Hsub Hstep; simpl in Hstep;
    rewrite Hcreate, Hsub in Hstep.
  - destruct (budgetFormOpen s && Crypto.is_uuid uuid); [|discriminate].
    injection Hstep as <-.
    assert (Hlist : budgets (setBudgetFormOpen false (handleSaveBudget data s))
                    = budgets s ++ [data]).
    { unfold handleSaveBudget. rewrite Hcreate. reflexivity. }
    split; [exact Hlist|].
    apply submit_budget_is_handleSubmit in Hsub. subst data.
    repeat split.
    unfold totalBudget at 1. rewrite Hlist, fold_left_app. reflexivity.
  - destruct (goalFormOpen s && Crypto.is_uuid uuid); [|discriminate].
    injection Hstep as <-.
    assert (Hlist : goals (setGoalFormOpen false (handleSaveGoal data s))
                    = goals s ++ [data]).
    { unfold handleSaveGoal. rewrite Hcreate. reflexivity. }
    split; [exact Hlist|].
    apply submit_goal_is_handleSubmit in Hsub. subst data.
    repeat split.
    unfold totalTarget at 1. rewrite Hlist, fold_left_app. reflexivity.
Qed.

(** A budget "Rent" with the limit 20000 is created on the initial page: the
    total budget goes from 42000 to 62000. *)
Lemma create_appends_one_entry_witness :
  exists data s',
    step (handleAddBudget initial) (SubmitBudgetForm Sample.rent Sample.uuid) = Some s' /\
    budgets s' = INITIAL_BUDGETS ++ [data] /\
    Budget.spent data = JS.zero /\
    totalBudget s' = JS.of_Z 62000.
Proof.
  destruct (step (handleAddBudget initial) (SubmitBudgetForm Sample.rent Sample.uuid))
    as [s'|] eqn:E; [|vm_compute in E; discriminate].
  exists (BudgetFormDialog.handleSubmit None Sample.uuid Sample.rent), s'.
  destruct (proj1 create_appends_one_entry (handleAddBudget initial) Sample.rent
              Sample.uuid (BudgetFormDialog.handleSubmit None Sample.uuid Sample.rent)
              s' eq_refl eq_refl E) as (Hlist & _ & Hspent & Htotal & _).
  split; [reflexivity|]. split; [exact Hlist|]. split; [exact Hspent|].
  rewrite Htotal. vm_compute. reflexivity.
Defined.

(** ** Amounts that stay at or above zero *)

Lemma submitted_limit_not_negative (budget : option Budget.t) (uuid : string)
    (f : BudgetFormDialog.form) (data : Budget.t) :
  BudgetFormDialog.submit budget uuid f = Some data ->
  JS.ge (Budget.limit data) JS.zero = true.
Proof.
  unfold BudgetFormDialog.submit.
  destruct (BudgetFormDialog.disabled f); [discriminate|].
  destruct (BudgetFormDialog.checkValidity f) eqn:Hvalid; [|discriminate].
  intros H. injection H as <-. simpl.
  unfold BudgetFormDialog.checkValidity in Hvalid.
  apply andb_true_iff in Hvalid as [_ Hlimit].
  apply or_zero_not_negative.
  apply number_checkValidity_min with (required := true); [assumption|].
  now apply number_checkValidity_required in Hlimit.
Qed.

Lemma submitted_target_not_negative (goal : option Goal.t) (uuid : string)
    (f : GoalFormDialog.form) (data : Goal.t) :
  GoalFormDialog.submit goal uuid f = Some data ->
  JS.ge (Goal.target data) JS.zero = true.
Proof.
  unfold GoalFormDialog.submit.
  destruct (GoalFormDialog.disabled f); [discriminate|].
  destruct (GoalFormDialog.checkValidity goal f) eqn:Hvalid; [|discriminate].
  intros H. injection H as <-. simpl.
  unfold GoalFormDialog.checkValidity in Hvalid.
  apply andb_true_iff in Hvalid as [Hvalid _].
  apply andb_true_iff in Hvalid as [Hvalid _].
  apply andb_true_iff in Hvalid as [_ Htarget].
  apply or_zero_not_negative.
  apply number_checkValidity_min with (required := true); [assumption|].
  now apply number_checkValidity_required in Htarget.
Qed.

Lemma save_budget_Forall (P : Budget.t -> Prop) (s : state) (data : Budget.t) :
  P data -> Forall P (budgets s) -> Forall P (budgets (handleSaveBudget data s)).
Proof.
  intros Hd Hall. unfold handleSaveBudget.
  destruct (editingBudget s); cbn.
  - apply Forall_map. eapply Forall_impl; [|exact Hall].
    intros b Hb. simpl. destruct (Budget.id b =? Budget.id data)%string; assumption.
  - apply Forall_app. split; [assumption | now constructor].
Qed.

Lemma save_goal_Forall (P : Goal.t -> Prop) (s : state) (data : Goal.t) :
  P data -> Forall P (goals s) -> Forall P (goals (handleSaveGoal data s)).
Proof.
  intros Hd Hall. unfold handleSaveGoal.
  destruct (editingGoal s); cbn.
  - apply Forall_map. eapply Forall_impl; [|exact Hall].
    intros g Hg. simpl. destruct (Goal.id g =? Goal.id data)%string; assumption.
  - apply Forall_app. split; [assumption | now constructor].
Qed.

Lemma filter_Forall {A} (P : A -> Prop) (p : A -> bool) (l : list A) :
  Forall P l -> Forall P (filter p l).
Proof.
  intros H. apply Forall_forall. intros x Hx. apply filter_In in Hx as [Hx _].
  eapply Forall_forall; eassumption.
Qed.

Lemma save_budget_frame (s : state) (data : Budget.t) :
  editingBudget (handleSaveBudget data s) = editingBudget s /\
  editingGoal (handleSaveBudget data s) = editingGoal s.
Proof.
  unfold handleSaveBudget. destruct (editingBudget s) eqn:E; cbn; rewrite ?E; split; reflexivity.
Qed.

Lemma save_goal_frame (s : state) (data : Goal.t) :
  editingBudget (handleSaveGoal data s) = editingBudget s /\
  editingGoal (handleSaveGoal data s) = editingGoal s.
Proof.
  unfold handleSaveGoal. destruct (editingGoal s) eqn:E; cbn; rewrite ?E; split; reflexivity.
Qed.

Ltac split_amounts := unfold PageSpec.amounts_invariant; split; [|split; [|split]].

Lemma amounts_initial : PageSpec.amounts_invariant initial.
Proof.
  split_amounts; simpl; try discriminate;
    repeat constructor; simpl; discriminate.
Qed.

Lemma amounts_step (s : state) (e : event) (s' : state) :
  PageSpec.amounts_invariant s -> step s e = Some s' ->
  PageSpec.amounts_invariant s'.
Proof.
  intros (Hb & Heb & Hg & Heg) Hstep.
  destruct e; simpl in Hstep.
  - step_cases Hstep. split_amounts; cbn; auto.
  - step_cases Hstep; split_amounts; cbn; auto; discriminate.
  - step_cases Hstep. split_amounts; cbn; auto.
    intros b' Hb'. injection Hb' as <-.
    eapply Forall_forall; [exact Hb | eapply nth_error_In; eassumption].
  - step_cases Hstep. split_amounts; cbn; auto.
  - destruct (budgetFormOpen s && Crypto.is_uuid uuid); [|discriminate].
    destruct (BudgetFormDialog.submit (editingBudget s) uuid f) as [data|] eqn:Hsub;
      injection Hstep as <-; [|split_amounts; cbn; auto].
    assert (Hdata : PageSpec.budget_amounts_ok data).
    { split; [eapply submitted_limit_not_negative; eassumption|].
      apply submit_budget_is_handleSubmit in Hsub. subst data. simpl.
      destruct (editingBudget s) as [b|] eqn:E; [|reflexivity].
      apply or_zero_not_negative. now apply (Heb b). }
    split_amounts; cbn.
    + now apply save_budget_Forall.
    + rewrite (proj1 (save_budget_frame s data)). exact Heb.
    + now rewrite save_budget_goals.
    + rewrite (proj2 (save_budget_frame s data)). exact Heg.
  - step_cases Hstep. split_amounts; cbn; auto.
  - destruct (deleteBudgetOpen s); [|discriminate]. injection Hstep as <-.
    unfold handleConfirmDeleteBudget.
    destruct (budgetToDelete s); split_amounts; cbn; auto.
    now apply filter_Forall.
  - step_cases Hstep. split_amounts; cbn; auto.
  - step_cases Hstep. split_amounts; cbn; auto.
    intros g' Hg'. injection Hg' as <-.
    eapply Forall_forall; [exact Hg | eapply nth_error_In; eassumption].
  - step_cases Hstep. split_amounts; cbn; auto.
  - step_cases Hstep. split_amounts; cbn; auto.
  - destruct (goalFormOpen s && Crypto.is_uuid uuid) eqn:Hopen; [|discriminate].
    apply andb_true_iff in Hopen as [_ Huuid].
    destruct (GoalFormDialog.submit (editingGoal s) uuid f) as [data|] eqn:Hsub;
      injection Hstep as <-; [|split_amounts; cbn; auto].
    assert (Hdata : PageSpec.goal_ok data).
    { split; [eapply submitted_target_not_negative; eassumption|].
      apply submit_goal_is_handleSubmit in Hsub. subst data. simpl.
      apply or_string_not_empty, uuid_not_empty, Huuid. }
    split_amounts; cbn.
    + now rewrite save_goal_budgets.
    + rewrite (proj1 (save_goal_frame s data)). exact Heb.
    + now apply save_goal_Forall.
    + rewrite (proj2 (save_goal_frame s data)). exact Heg.
  - step_cases Hstep. split_amounts; cbn; auto.
  - destruct (deleteGoalOpen s); [|discriminate]. injection Hstep as <-.
    unfold handleConfirmDeleteGoal.
    destruct (goalToDelete s); split_amounts; cbn; auto.
    now apply filter_Forall.
  - step_cases Hstep. split_amounts; cbn; auto.
  - destruct (addSavingsOpen s); [|discriminate].
    destruct (AddSavingsDialog.submit (goalForSavings s) amount) as [[goalId n]|];
      injection Hstep as <-; [|split_amounts; cbn; auto].
    split_amounts; cbn; auto.
    apply Forall_map. eapply Forall_impl; [|exact Hg].
    intros g Hok. simpl. destruct (Goal.id g =? goalId)%string; exact Hok.
  - step_cases Hstep. split_amounts; cbn; auto.
Qed.

Lemma amounts_reachable (s : state) : reachable s -> PageSpec.amounts_invariant s.
Proof.
  intros [es Hrun]. revert Hrun.
  generalize amounts_initial. generalize initial as s0.
  induction es as [|e es IH]; intros s0 Hinv Hrun; simpl in Hrun.
  - now injection Hrun as <-.
  - destruct (step s0 e) as [s1|] eqn:Hstep; [|discriminate].
    apply (IH s1); [|assumption].
    eapply amounts_step; eassumption.
Qed.

(** X12: in every state that the page reaches, no budget has a negative or
    [NaN] limit or spent, and no goal has a negative or [NaN] target. *)
Theorem amounts_are_never_negative (s : state) :
  reachable s ->
  (forall budget,
      In budget (budgets s) ->
      JS.ge (Budget.limit budget) JS.zero = true /\
      JS.ge (Budget.spent budget) JS.zero = true /\
      JS.isNaN (Budget.limit budget) = false /\
      JS.isNaN (Budget.spent budget) = false) /\
  (forall goal,
      In goal (goals s) ->
      JS.ge (Goal.target goal) JS.zero = true /\
      JS.isNaN (Goal.target goal) = false).
Proof.
  intros Hreach.
  apply amounts_reachable in Hreach as (Hb & _ & Hg & _).
  assert (Hnan : forall x, JS.ge x JS.zero = true -> JS.isNaN x = false).
  { intros x. destruct x; try reflexivity. discriminate. }
  split.
  - intros budget Hin.
    destruct (proj1 (Forall_forall _ _) Hb budget Hin) as [Hl Hs].
    repeat split; auto.
  - intros goal Hin.
    destruct (proj1 (Forall_forall _ _) Hg goal Hin) as [Ht _].
    split; auto.
Qed.

(** The food budget of the initial page is edited to the limit 9000. *)
Lemma amounts_are_never_negative_witness :
  exists s budget,
    run initial [ClickEditBudget 0; SubmitBudgetForm Sample.groceries Sample.uuid]
    = Some s /\
    nth_error (budgets s) 0 = Some budget /\
    Budget.category budget = "Groceries" /\
    JS.ge (Budget.limit budget) JS.zero = true /\
    JS.ge (Budget.spent budget) JS.zero = true.
Proof.
  destruct (run initial [ClickEditBudget 0; SubmitBudgetForm Sample.groceries Sample.uuid])
    as [s|] eqn:E; [|vm_compute in E; discriminate].
  destruct (nth_error (budgets s) 0) as [budget|] eqn:En;
    [|vm_compute in E; injection E as <-; discriminate].
  exists s, budget.
  split; [reflexivity|]. split; [exact En|].
  split; [vm_compute in E; injection E as <-; injection En as <-; reflexivity|].
  destruct (amounts_are_never_negative s) as [Hb _].
  - exists [ClickEditBudget 0; SubmitBudgetForm Sample.groceries Sample.uuid]. exact E.
  - destruct (Hb budget (nth_error_In _ _ En)) as (Hl & Hs & _).
    split; assumption.
Defined.

(** X13: editing a goal keeps its id, in every state that the page reaches:
    the goal passed to [onSave] has the id of the goal that is edited, while
    its saved amount and its target are what the form holds. *)
Theorem edit_goal_keeps_id (s : state) (g : Goal.t) (uuid : string)
    (f : GoalFormDialog.form) :
  reachable s ->
  In g (goals s) \/ editingGoal s = Some g ->
  let data := GoalFormDialog.handleSubmit (Some g) uuid f in
  Goal.id data = Goal.id g /\
  Goal.saved data = JS.or_number (JS.parseFloat (GoalFormDialog.saved f)) JS.zero /\
  Goal.target data = JS.or_number (JS.parseFloat (GoalFormDialog.target f)) JS.zero.
Proof.
  intros Hreach Hg data.
  apply amounts_reachable in Hreach as (_ & _ & Hall & Hedit).
  assert (Hid : Goal.id g <> "").
  { destruct Hg as [Hg|Hg]; [|now apply (Hedit g)].
    now apply (proj1 (Forall_forall _ _) Hall g). }
  subst data. simpl. split; [|split; reflexivity].
  unfold JS.or_string, JS.truthy_string.
  apply String.eqb_neq in Hid. now rewrite Hid.
Qed.

(** The laptop goal of the initial page is edited. *)
Lemma edit_goal_keeps_id_witness :
  let laptop :=
    Goal.mk "2" "New Laptop" "üíª" (JS.of_Z 45000) (JS.of_Z 80000) "Jun 2026" in
  let data :=
    GoalFormDialog.handleSubmit (Some laptop) Sample.uuid
      (GoalFormDialog.mkForm "Workstation" "💻" "120000" "50000" "Sep 2026") in
  Goal.id data = "2" /\ Goal.saved data = JS.of_Z 50000.
Proof.
  intros laptop data.
  destruct (edit_goal_keeps_id initial laptop Sample.uuid
              (GoalFormDialog.mkForm "Workstation" "💻" "120000" "50000" "Sep 2026"))
    as (Hid & Hsaved & _).
  - exists []. reflexivity.
  - left. simpl. tauto.
  - split; [exact Hid|]. fold data in Hsaved. rewrite Hsaved. vm_compute. reflexivity.
Defined.

(** ** Adding savings through the dialog *)

Lemma positive_is_truthy (x y : JS.number) :
  JS.gt x JS.zero = true -> JS.or_number x y = x.
Proof.
  unfold JS.gt, JS.or_number. destruct x as [[]|[]| |[] m e]; intros H;
    try reflexivity; discriminate H.
Qed.

Lemma add_savings_submit (goal : option Goal.t) (amount : string)
    (goalId : string) (n : JS.number) :
  AddSavingsDialog.submit goal amount = Some (goalId, n) ->
  exists g,
    goal = Some g /\
    goalId = Goal.id g /\
    n = JS.parseFloat amount /\
    JS.ge n (JS.of_Z 1) = true /\
    JS.gt n JS.zero = true /\
    AddSavingsDialog.newTotal g amount = JS.add (Goal.saved g) n.
Proof.
  unfold AddSavingsDialog.submit.
  destruct (AddSavingsDialog.disabled amount); [discriminate|].
  destruct (AddSavingsDialog.checkValidity amount) eqn:Hvalid; [|discriminate].
  unfold AddSavingsDialog.handleSubmit.
  destruct goal as [g|]; [|discriminate].
  destruct (JS.truthy_string amount); [|discriminate].
  intros H. injection H as <- <-. exists g.
  assert (Hone : JS.ge (JS.parseFloat amount) (JS.of_Z 1) = true).
  { unfold AddSavingsDialog.checkValidity in Hvalid.
    apply number_checkValidity_min with (required := true); [assumption|].
    now apply number_checkValidity_required in Hvalid. }
  pose proof (at_least_one_is_positive _ Hone) as Hpos.
  repeat split; try assumption.
  unfold AddSavingsDialog.newTotal, AddSavingsDialog.currentAmount.
  now rewrite positive_is_truthy.
Qed.

(** X14: the add-savings dialog hands only amounts of at least 1 to the
    page, for the goal that the dialog was opened for: the amount passed to
    [onSave] is the number parsed from the input, it is at least 1, and with
    no goal nothing is passed. *)
Theorem savings_amount_is_at_least_one (goal : option Goal.t) (amount : string)
    (goalId : string) (n : JS.number) :
  AddSavingsDialog.submit goal amount = Some (goalId, n) ->
  exists g,
    goal = Some g /\
    goalId = Goal.id g /\
    n = JS.parseFloat amount /\
    JS.ge n (JS.of_Z 1) = true /\
    JS.gt n JS.zero = true.
Proof.
  intros H. destruct (add_savings_submit _ _ _ _ H) as (g & H1 & H2 & H3 & H4 & H5 & _).
  exists g. repeat split; assumption.
Qed.

(** 2500 for the vacation goal. *)
Lemma savings_amount_is_at_least_one_witness :
  let vacation :=
    Goal.mk "3" "Vacation Trip" "‚úàÔ∏è" (JS.of_Z 25000) (JS.of_Z 100000) "Oct 2026" in
  AddSavingsDialog.submit (Some vacation) "2500" = Some ("3", JS.of_Z 2500) /\
  JS.ge (JS.of_Z 2500) (JS.of_Z 1) = true.
Proof.
  intros vacation.
  assert (H : AddSavingsDialog.submit (Some vacation) "2500" = Some ("3", JS.of_Z 2500))
    by (vm_compute; reflexivity).
  split; [exact H|].
  destruct (savings_amount_is_at_least_one _ _ _ _ H) as (g & _ & _ & _ & Hone & _).
  exact Hone.
Defined.

(** X15: the new total that the add-savings dialog previews is what is
    saved: when the dialog was opened for a goal of the list and the amount is
    accepted, that goal's saved amount becomes the previewed total, and the
    dialog is closed. *)
Theorem previewed_total_is_saved (s : state) (i : nat) (g : Goal.t)
    (amount : string) (s' : state) :
  goalForSavings s = Some g ->
  nth_error (goals s) i = Some g ->
  AddSavingsDialog.submit (Some g) amount <> None ->
  step s (SubmitAddSavings amount) = Some s' ->
  exists g',
    nth_error (goals s') i = Some g' /\
    Goal.saved g' = AddSavingsDialog.newTotal g amount /\
    Goal.id g' = Goal.id g /\ Goal.target g' = Goal.target g /\
    addSavingsOpen s' = false.
Proof.
  intros Hfor Hnth Hsub Hstep. simpl in Hstep. rewrite Hfor in Hstep.
  destruct (addSavingsOpen s); [|discriminate].
  destruct (AddSavingsDialog.submit (Some g) amount) as [[goalId n]|] eqn:E;
    [|congruence].
  injection Hstep as <-.
  destruct (add_savings_submit _ _ _ _ E) as (g0 & Hg0 & Hid & _ & _ & _ & Htotal).
  injection Hg0 as <-.
  exists (Goal.with_saved g (JS.add (Goal.saved g) n)).
  split; [|rewrite Htotal; repeat split].
  unfold handleAddSavings. cbn.
  rewrite nth_error_map, Hnth. simpl.
  now rewrite Hid, String.eqb_refl.
Qed.

(** 2500 for the vacation goal of the initial page: the preview and the
    goal then read 27500. *)
Lemma previewed_total_is_saved_witness :
  exists s s' g g',
    run initial [SelectTab TabGoals; ClickAddSavings 2] = Some s /\
    goalForSavings s = Some g /\
    AddSavingsDialog.newTotal g "2500" = JS.of_Z 27500 /\
    step s (SubmitAddSavings "2500") = Some s' /\
    nth_error (goals s') 2 = Some g' /\
    Goal.saved g' = JS.of_Z 27500.
Proof.
  set (vacation :=
         Goal.mk "3" "Vacation Trip" "‚úàÔ∏è" (JS.of_Z 25000) (JS.of_Z 100000) "Oct 2026").
  set (s := handleAddSavingsClick vacation (setActiveTab TabGoals initial)).
  destruct (step s (SubmitAddSavings "2500")) as [s'|] eqn:E;
    [|vm_compute in E; discriminate].
  destruct (previewed_total_is_saved s 2 vacation "2500" s' eq_refl eq_refl)
    as (g' & Hnth & Hsaved & _).
  - vm_compute. discriminate.
  - exact E.
  - exists s, s', vacation, g'.
    split; [reflexivity|]. split; [reflexivity|].
    split; [vm_compute; reflexivity|]. split; [exact E|].
    split; [exact Hnth|]. rewrite Hsaved. vm_compute. reflexivity.
Defined.

(** X16: deposits of whole amounts add up: after two deposits [a] and [b] to
    a goal that has the whole amount [s0] saved, the goal has [s0 + a + b]
    saved and is otherwise unchanged, in whichever order the deposits are
    made, as long as the sum is below [2^53]. *)
Theorem whole_deposits_add_up (s : state) (goalId : string) (i : nat)
    (g : Goal.t) (s0 a b : Z) :
  nth_error (goals s) i = Some g ->
  Goal.id g = goalId ->
  Goal.saved g = JS.of_Z s0 ->
  0 <= s0 -> 0 <= a -> 0 <= b -> s0 + a + b < 2 ^ 53 ->
  nth_error
    (goals (handleAddSavings goalId (JS.of_Z b) (handleAddSavings goalId (JS.of_Z a) s)))
    i
  = Some (Goal.with_saved g (JS.of_Z (s0 + a + b))) /\
  nth_error
    (goals (handleAddSavings goalId (JS.of_Z a) (handleAddSavings goalId (JS.of_Z b) s)))
    i
  = Some (Goal.with_saved g (JS.of_Z (s0 + a + b))).
Proof.
  intros Hnth Hid Hsaved H0 Ha Hb Hsum.
  assert (H : forall x y, 0 <= x -> 0 <= y -> s0 + x + y < 2 ^ 53 ->
              nth_error
                (goals (handleAddSavings goalId (JS.of_Z y)
                          (handleAddSavings goalId (JS.of_Z x) s))) i
              = Some (Goal.with_saved g (JS.of_Z (s0 + x + y)))).
  { intros x y Hx Hy Hxy. unfold handleAddSavings. cbn.
    rewrite !nth_error_map, Hnth. simpl.
    rewrite Hid, String.eqb_refl. simpl. rewrite ?Hid, ?String.eqb_refl.
    unfold Goal.with_saved. simpl.
    rewrite Hsaved, add_of_Z by lia. rewrite add_of_Z by lia. reflexivity. }
  split; [now apply H|].
  replace (s0 + a + b) with (s0 + b + a) by lia. apply H; lia.
Qed.

(** 5000 and then 2500, or 2500 and then 5000, for the vacation goal of the
    initial page, which has 25000 saved. *)
Lemma whole_deposits_add_up_witness :
  exists g',
    nth_error
      (goals (handleAddSavings "3" (JS.of_Z 2500)
                (handleAddSavings "3" (JS.of_Z 5000) initial))) 2 = Some g' /\
    Goal.saved g' = JS.of_Z 32500.
Proof.
  eexists. split.
  - apply (whole_deposits_add_up initial "3" 2
             (Goal.mk "3" "Vacation Trip" "‚úàÔ∏è" (JS.of_Z 25000) (JS.of_Z 100000) "Oct 2026")
             25000 5000 2500); try reflexivity; lia.
  - reflexivity.
Defined.

(** ** Saving an edit again *)

Lemma same_id_same_entry {A} (key : A -> string) (l : list A) (a b : A) :
  NoDup (map key l) -> In a l -> In b l -> key a = key b -> a = b.
Proof.
  induction l as [|x l IH]; intros Hnd Ha Hb Hkey; [contradiction|].
  simpl in Hnd. inversion Hnd as [|? ? Hnotin Hnd']; subst.
  destruct Ha as [<-|Ha], Hb as [<-|Hb].
  - reflexivity.
  - exfalso. apply Hnotin. rewrite Hkey. now apply in_map.
  - exfalso. apply Hnotin. rewrite <- Hkey. now apply in_map.
  - now apply IH.
Qed.

Lemma replace_by_itself {A} (key : A -> string) (d : A) (l : list A) :
  NoDup (map key l) -> In d l ->
  map (fun x => if (key x =? key d)%string then d else x) l = l.
Proof.
  intros Hnd Hd. rewrite <- (map_id l) at 2. apply map_ext_in.
  intros x Hx. destruct (String.eqb_spec (key x) (key d)) as [E|E]; [|reflexivity].
  symmetry. now apply (same_id_same_entry key l).
Qed.

Lemma replace_twice {A} (key : A -> string) (d1 d2 : A) (l : list A) :
  key d1 = key d2 ->
  map (fun x => if (key x =? key d2)%string then d2 else x)
    (map (fun x => if (key x =? key d1)%string then d1 else x) l)
  = map (fun x => if (key x =? key d2)%string then d2 else x) l.
Proof.
  intros Hkey. rewrite map_map. apply map_ext. intros x. rewrite Hkey.
  destruct (String.eqb_spec (key x) (key d2)) as [E|E].
  - now rewrite Hkey, String.eqb_refl.
  - apply String.eqb_neq in E. now rewrite E.
Qed.

(** X17: saving edits again.  With distinct ids, saving an entry of the list
    unchanged leaves the list as it is; and of two edits of the same item
    saved one after the other, the last one stands, as if it had been saved
    alone. *)
Theorem last_saved_edit_stands :
  (forall s data,
      editingBudget s <> None ->
      NoDup (map Budget.id (budgets s)) ->
      In data (budgets s) ->
      budgets (handleSaveBudget data s) = budgets s) /\
  (forall s first last,
      editingBudget s <> None ->
      Budget.id first = Budget.id last ->
      budgets (handleSaveBudget last (handleSaveBudget first s))
      = budgets (handleSaveBudget last s)) /\
  (forall s data,
      editingGoal s <> None ->
      NoDup (map Goal.id (goals s)) ->
      In data (goals s) ->
      goals (handleSaveGoal data s) = goals s) /\
  (forall s first last,
      editingGoal s <> None ->
      Goal.id first = Goal.id last ->
      goals (handleSaveGoal last (handleSaveGoal first s))
      = goals (handleSaveGoal last s)).
Proof.
  repeat split.
  - intros s data Hedit Hnd Hin. unfold handleSaveBudget.
    destruct (editingBudget s); [|congruence]. cbn.
    now apply (replace_by_itself Budget.id).
  - intros s first last Hedit Hid.
    unfold handleSaveBudget at 1. rewrite (proj1 (save_budget_frame s first)).
    unfold handleSaveBudget.
    destruct (editingBudget s); [|congruence]. cbn.
    now apply (replace_twice Budget.id).
  - intros s data Hedit Hnd Hin. unfold handleSaveGoal.
    destruct (editingGoal s); [|congruence]. cbn.
    now apply (replace_by_itself Goal.id).
  - intros s first last Hedit Hid.
    unfold handleSaveGoal at 1. rewrite (proj2 (save_goal_frame s first)).
    unfold handleSaveGoal.
    destruct (editingGoal s); [|congruence]. cbn.
    now apply (replace_twice Goal.id).
Qed.

(** The food budget of the initial page is saved unchanged. *)
Lemma last_saved_edit_stands_witness :
  budgets (handleSaveBudget Sample.food (handleEditBudget Sample.food initial))
  = INITIAL_BUDGETS.
Proof.
  apply (proj1 last_saved_edit_stands (handleEditBudget Sample.food initial) Sample.food).
  - simpl. discriminate.
  - simpl. distinct_ids.
  - simpl. tauto.
Defined.

(** ** Whole amounts and completed goals *)

Lemma digits2_pos_monotone (a b : positive) :
  (a <= b)%positive -> Zpos (digits2_pos a) <= Zpos (digits2_pos b).
Proof.
  intros Hab.
  pose proof (digits2_pos_bounds a) as [Hlo _].
  pose proof (digits2_pos_bounds b) as [_ Hhi].
  destruct (Z_le_gt_dec (Zpos (digits2_pos a)) (Zpos (digits2_pos b))) as [|Hgt];
    [assumption|].
  exfalso.
  assert (2 ^ Zpos (digits2_pos b) <= 2 ^ (Zpos (digits2_pos a) - 1))
    by (apply Z.pow_le_mono_r; lia).
  lia.
Qed.

Lemma le_canonical (a b : positive) :
  Zpos a < 2 ^ 53 -> Zpos b < 2 ^ 53 ->
  JS.le (Spec.canonical a) (Spec.canonical b) = (Zpos a <=? Zpos b).
Proof.
  intros Ha Hb.
  pose proof (digits2_pos_small a Ha) as Hda.
  pose proof (digits2_pos_small b Hb) as Hdb.
  pose proof (scaled_mantissa a Ha) as [Hqa _].
  pose proof (scaled_mantissa b Hb) as [Hqb _].
  cbv zeta in Hqa, Hqb.
  unfold JS.le, SFleb, SFcompare, Spec.canonical.
  set (ma := Z.to_pos (Zpos a * 2 ^ (53 - Zpos (digits2_pos a)))) in *.
  set (mb := Z.to_pos (Zpos b * 2 ^ (53 - Zpos (digits2_pos b)))) in *.
  rewrite Pos.compare_cont_spec. simpl Pos.switch_Eq.
  destruct (Z.compare_spec (Zpos (digits2_pos a) - 53) (Zpos (digits2_pos b) - 53))
    as [Heq|Hlt|Hgt].
  - assert (Hd : Zpos (digits2_pos a) = Zpos (digits2_pos b)) by lia.
    rewrite Hd in Hqa.
    assert (Hpow : 0 < 2 ^ (53 - Zpos (digits2_pos b))) by (apply Z.pow_pos_nonneg; lia).
    change (ma ?= mb)%positive with (Zpos ma ?= Zpos mb). rewrite Hqa, Hqb.
    revert Hpow. generalize (2 ^ (53 - Zpos (digits2_pos b))). intros k Hk.
    destruct (Z.compare_spec (Zpos a * k) (Zpos b * k)) as [E|E|E];
      destruct (Z.leb_spec (Zpos a) (Zpos b)); try reflexivity; nia.
  - destruct (Z.leb_spec (Zpos a) (Zpos b)) as [|Hba]; [reflexivity|].
    exfalso.
    assert (Zpos (digits2_pos b) <= Zpos (digits2_pos a))
      by (apply digits2_pos_monotone; lia).
    lia.
  - destruct (Z.leb_spec (Zpos a) (Zpos b)) as [Hab|]; [|reflexivity].
    exfalso.
    assert (Zpos (digits2_pos a) <= Zpos (digits2_pos b))
      by (apply digits2_pos_monotone; lia).
    lia.
Qed.

(** On whole numbers from 0 up to [2^53], [<=] is the order of the
    integers. *)
Lemma le_of_Z (a b : Z) :
  0 <= a < 2 ^ 53 -> 0 <= b < 2 ^ 53 ->
  JS.le (JS.of_Z a) (JS.of_Z b) = (a <=? b).
Proof.
  intros Ha Hb.
  destruct a as [|a|a], b as [|b|b]; try lia.
  - reflexivity.
  - rewrite of_Z_canonical by lia. reflexivity.
  - rewrite of_Z_canonical by lia. reflexivity.
  - rewrite !of_Z_canonical by lia. apply le_canonical; lia.
Qed.

(** X18: a goal of whole amounts is complete exactly when its saved amount
    has reached its target, and a complete goal takes no more savings: its
    add-savings button is not offered, also right after the deposit that
    reaches the target. *)
Theorem reached_goal_takes_no_more_savings (s : state) (i : nat) (g : Goal.t)
    (saved target : Z) :
  nth_error (goals s) i = Some g ->
  Goal.saved g = JS.of_Z saved ->
  Goal.target g = JS.of_Z target ->
  0 <= saved < 2 ^ 53 ->
  0 <= target < 2 ^ 53 ->
  (goal_isComplete g = true <-> target <= saved) /\
  (target <= saved -> step s (ClickAddSavings i) = None) /\
  (forall a,
      0 <= a -> saved + a < 2 ^ 53 -> target <= saved + a ->
      step (handleAddSavings (Goal.id g) (JS.of_Z a) s) (ClickAddSavings i) = None).
Proof.
  intros Hnth Hsaved Htarget Hs Ht.
  assert (Hcomplete : goal_isComplete g = true <-> target <= saved).
  { unfold goal_isComplete, JS.ge. fold (JS.le (Goal.target g) (Goal.saved g)).
    rewrite Hsaved, Htarget, le_of_Z by assumption. apply Z.leb_le. }
  split; [exact Hcomplete|]. split.
  - intros Hreached. simpl. rewrite Hnth.
    apply Hcomplete in Hreached. rewrite Hreached.
    now rewrite orb_true_r.
  - intros a Ha Hsum Hreached. simpl.
    unfold handleAddSavings at 1. cbn.
    rewrite nth_error_map, Hnth. simpl. rewrite String.eqb_refl.
    replace (goal_isComplete
               (Goal.with_saved g (JS.add (Goal.saved g) (JS.of_Z a)))) with true.
    + now rewrite orb_true_r.
    + symmetry. unfold goal_isComplete, JS.ge. simpl.
      fold (JS.le (Goal.target g) (JS.add (Goal.saved g) (JS.of_Z a))).
      rewrite Hsaved, Htarget, add_of_Z by lia.
      rewrite le_of_Z by lia. now apply Z.leb_le.
Qed.

(** 55000 is added to the laptop goal of the initial page, which has 45000
    saved of a target of 80000. *)
Lemma reached_goal_takes_no_more_savings_witness :
  let s := setActiveTab TabGoals initial in
  (exists s', step s (ClickAddSavings 1) = Some s') /\
  step (handleAddSavings "2" (JS.of_Z 55000) s) (ClickAddSavings 1) = None.
Proof.
  intros s. split; [eexists; reflexivity|].
  assert (R1 : 0 <= 45000 < 2 ^ 53) by (split; [lia | reflexivity]).
  assert (R2 : 0 <= 80000 < 2 ^ 53) by (split; [lia | reflexivity]).
  destruct (reached_goal_takes_no_more_savings s 1
              (Goal.mk "2" "New Laptop" "üíª" (JS.of_Z 45000) (JS.of_Z 80000) "Jun 2026")
              45000 80000 eq_refl eq_refl eq_refl R1 R2) as (_ & _ & H).
  apply (H 55000); [lia | reflexivity | lia].
Defined.

(** X19: for a whole score, the label follows the bands of the component's
    header: "Excellent" from 80, "Good" from 60 to 79, "Fair" from 40 to 59
    and "Needs Attention" below 40; the colour is green from 80, the warning
    colour from 60 to 79 and the destructive colour below 60. *)
Theorem whole_score_bands (n : Z) :
  0 <= n < 2 ^ 53 ->
  FinancialHealthScore.getScoreLabel (JS.of_Z n)
  = (if 80 <=? n then "Excellent"
     else if 60 <=? n then "Good"
     else if 40 <=? n then "Fair"
     else "Needs Attention") /\
  FinancialHealthScore.getScoreColor (JS.of_Z n)
  = (if 80 <=? n then "text-emerald"
     else if 60 <=? n then "text-warning"
     else "text-destructive").
Proof.
  intros Hn.
  assert (H : forall c, 0 <= c < 2 ^ 53 -> JS.ge (JS.of_Z n) (JS.of_Z c) = (c <=? n)).
  { intros c Hc. unfold JS.ge. fold (JS.le (JS.of_Z c) (JS.of_Z n)).
    now apply le_of_Z. }
  unfold FinancialHealthScore.getScoreLabel, FinancialHealthScore.getScoreColor.
  rewrite !H by (split; [lia | reflexivity]).
  split; reflexivity.
Qed.

(** The scores 79 and 80. *)
Lemma whole_score_bands_witness :
  FinancialHealthScore.getScoreLabel (JS.of_Z 79) = "Good" /\
  FinancialHealthScore.getScoreLabel (JS.of_Z 80) = "Excellent".
Proof.
  assert (R79 : 0 <= 79 < 2 ^ 53) by (split; [lia | reflexivity]).
  assert (R80 : 0 <= 80 < 2 ^ 53) by (split; [lia | reflexivity]).
  split.
  - exact (proj1 (whole_score_bands 79 R79)).
  - exact (proj1 (whole_score_bands 80 R80)).
Defined.

(** ** Sample runs of the further properties *)

(** An expense of 1200 for "Shopping" is accepted; without a category it is
    not. *)
Lemma add_transaction_accepts_positive_amounts_witness :
  AddTransaction.navigate
    (AddTransaction.handleSubmit
       (AddTransaction.mkForm AddTransaction.expense "1200" "Shopping" "" "2026-01-15"))
  = Some "/" /\
  AddTransaction.navigate
    (AddTransaction.handleSubmit
       (AddTransaction.mkForm AddTransaction.expense "1200" "" "" "2026-01-15"))
  = None.
Proof.
  split.
  - apply (proj2 (proj1 (add_transaction_accepts_positive_amounts
                           (AddTransaction.mkForm AddTransaction.expense "1200"
                              "Shopping" "" "2026-01-15")))).
    split; [discriminate | split; [discriminate | vm_compute; reflexivity]].
  - apply (proj2 (proj1 (proj2 (add_transaction_accepts_positive_amounts
                                  (AddTransaction.mkForm AddTransaction.expense "1200"
                                     "" "" "2026-01-15"))))).
    eexists. reflexivity.
Defined.

(** The score [0 / 0]. *)
Lemma score_colour_follows_label_witness :
  FinancialHealthScore.getScoreLabel (JS.div JS.zero JS.zero) = "Needs Attention" /\
  FinancialHealthScore.getScoreColor (JS.div JS.zero JS.zero) = "text-destructive".
Proof.
  destruct (score_colour_follows_label (JS.div JS.zero JS.zero))
    as (_ & _ & Hred & Hnan).
  pose proof (Hnan eq_refl) as Hlabel.
  split; [exact Hlabel|].
  apply (proj1 Hred). right. exact Hlabel.
Defined.
